(** * MailSmith.AI backend (server.py): the proxy endpoints and the review store

    A shallow embedding of [server.py].  The Flask handlers become functions
    of what they read (the configured key, the parsed request body, the
    clock, the answer of the upstream provider, the state of [reviews.json])
    and return the HTTP response together with what they change or emit
    (the new state of [reviews.json], the upstream calls and log lines).

    Python values are modelled as far as the handlers look at them:
    JSON values with Python's truthiness, [int()], [str.strip()], the [in]
    operator, and exceptions with their class hierarchy, so that every
    [except] clause of the source is a subclass test here. *)

From Stdlib Require Import ZArith List Bool String Ascii Lia SpecFloat DecimalString.
Import ListNotations.
Open Scope Z_scope.
Set Warnings "-register-all".

(** ** Python strings *)

(** A Python [str] is a sequence of Unicode code points. *)
Definition codepoint := N.
Definition str := list codepoint.

(** A literal of the source; the literals of [server.py] used here are ASCII. *)
Definition lit (s : string) : str := map N_of_ascii (list_ascii_of_string s).

Fixpoint str_eqb (a b : str) : bool :=
  match a, b with
  | [], [] => true
  | x :: a', y :: b' => N.eqb x y && str_eqb a' b'
  | _, _ => false
  end.

(** [s.startswith(p)] *)
Fixpoint startswith (s p : str) : bool :=
  match p, s with
  | [], _ => true
  | x :: p', y :: s' => N.eqb x y && startswith s' p'
  | _ :: _, [] => false
  end.

(** [sub in s] for two strings: [sub] occurs in [s] as a contiguous run. *)
Fixpoint contains (s sub : str) : bool :=
  startswith s sub ||
  match s with
  | [] => false
  | _ :: s' => contains s' sub
  end.

(** [c.isspace()]: the code points CPython's [_PyUnicode_IsWhitespace]
    accepts, which are the ones [str.strip()] removes. *)
Definition isspace (c : codepoint) : bool :=
  let c := Z.of_N c in
  ((9 <=? c) && (c <=? 13)) || ((28 <=? c) && (c <=? 32)) ||
  (c =? 133) || (c =? 160) || (c =? 5760) ||
  ((8192 <=? c) && (c <=? 8202)) ||
  (c =? 8232) || (c =? 8233) || (c =? 8239) || (c =? 8287) || (c =? 12288).

Fixpoint lstrip (s : str) : str :=
  match s with
  | [] => []
  | c :: s' => if isspace c then lstrip s' else s
  end.

Definition rstrip (s : str) : str := rev (lstrip (rev s)).

(** [s.strip()] *)
Definition strip (s : str) : str := rstrip (lstrip s).

(** [str(n)] for an integer. *)
Definition str_of_int (n : Z) : str := lit (NilZero.string_of_int (Z.to_int n)).

(** A surrogate code point: a [str] holding one cannot be encoded as UTF-8. *)
Definition is_surrogate (c : codepoint) : bool :=
  ((55296 <=? Z.of_N c) && (Z.of_N c <=? 57343)).

Definition utf8_encodable (s : str) : bool := forallb (fun c => negb (is_surrogate c)) s.

(** ** JSON values, as [json.loads] builds them *)

Inductive json : Type :=
| JNull                                   (* None *)
| JBool (b : bool)
| JInt (n : Z)
| JFloat (f : spec_float)                 (* a double, NaN and the infinities included *)
| JStr (s : str)
| JArr (items : list json)                (* list *)
| JObj (items : list (str * json)).       (* dict, in insertion order *)

(** [d.get(k)] on the items of a dict: [None] when the key is absent. *)
Fixpoint lookup (k : str) (items : list (str * json)) : option json :=
  match items with
  | [] => None
  | (k', v) :: rest => if str_eqb k k' then Some v else lookup k rest
  end.

(** [bool(x)]: what [if not data] and [x or y] test. *)
Definition truthy (x : json) : bool :=
  match x with
  | JNull => false
  | JBool b => b
  | JInt n => negb (n =? 0)
  | JFloat (S754_zero _) => false
  | JFloat _ => true
  | JStr s => negb (str_eqb s [])
  | JArr items => match items with [] => false | _ => true end
  | JObj items => match items with [] => false | _ => true end
  end.

(** [x or y] *)
Definition por (x y : json) : json := if truthy x then x else y.

(** Every string of a value, keys included, can be written as UTF-8. *)
Fixpoint encodable (x : json) : bool :=
  match x with
  | JStr s => utf8_encodable s
  | JArr items => forallb encodable items
  | JObj items =>
      (fix go (l : list (str * json)) : bool :=
         match l with
         | [] => true
         | (k, v) :: l' => utf8_encodable k && encodable v && go l'
         end) items
  | _ => true
  end.

(** ** Exceptions *)

(** The exception classes the handlers can meet: builtins, [json]'s and
    those of [requests.exceptions]. *)
Inductive exn : Type :=
| TypeError | AttributeError | KeyError | ValueError | OverflowError
| RecursionError
| UnicodeDecodeError | UnicodeEncodeError
| OSError                                  (* IOError is an alias of OSError *)
| PermissionError
| JSONDecodeError                          (* json.JSONDecodeError *)
| RequestException | Timeout | ConnectTimeout | ReadTimeout
| ConnectionError | HTTPError | InvalidHeader | InvalidJSONError.

Definition exn_eqb (a b : exn) : bool :=
  match a, b with
  | TypeError, TypeError | AttributeError, AttributeError | KeyError, KeyError
  | ValueError, ValueError | OverflowError, OverflowError
  | RecursionError, RecursionError
  | UnicodeDecodeError, UnicodeDecodeError
  | UnicodeEncodeError, UnicodeEncodeError
  | OSError, OSError | PermissionError, PermissionError
  | JSONDecodeError, JSONDecodeError
  | RequestException, RequestException | Timeout, Timeout
  | ConnectTimeout, ConnectTimeout | ReadTimeout, ReadTimeout
  | ConnectionError, ConnectionError | HTTPError, HTTPError
  | InvalidHeader, InvalidHeader | InvalidJSONError, InvalidJSONError => true
  | _, _ => false
  end.

(** The direct base classes, below [Exception]. *)
Definition bases (c : exn) : list exn :=
  match c with
  | UnicodeDecodeError | UnicodeEncodeError | JSONDecodeError => [ValueError]
  | PermissionError => [OSError]
  | RequestException => [OSError]
  | Timeout | ConnectionError | HTTPError | InvalidJSONError => [RequestException]
  | ConnectTimeout => [ConnectionError; Timeout]
  | ReadTimeout => [Timeout]
  | InvalidHeader => [RequestException; ValueError]
  | _ => []
  end.

Fixpoint issubclass_upto (depth : nat) (c d : exn) : bool :=
  exn_eqb c d ||
  match depth with
  | O => false
  | S depth' => existsb (fun b => issubclass_upto depth' b d) (bases c)
  end.

(** [issubclass(c, d)]; no chain of [bases] is longer than four. *)
Definition issubclass (c d : exn) : bool := issubclass_upto 4 c d.

(** [except (d1, d2, ...)] catches [c]. *)
Definition caught (c : exn) (handlers : list exn) : bool :=
  existsb (issubclass c) handlers.

(** The result of evaluating an expression: a value or a raised exception. *)
Inductive result (A : Type) : Type :=
| Ok (a : A)
| Raise (e : exn).
Arguments Ok {A} a.
Arguments Raise {A} e.

Definition bind {A B : Type} (r : result A) (k : A -> result B) : result B :=
  match r with
  | Ok a => k a
  | Raise e => Raise e
  end.

Notation "x <- r ;; k" := (bind r (fun x => k))
  (at level 61, r at next level, right associativity).

(** ** Operators and methods the handlers apply to request data *)

(** [k in data] for a string [k]: key membership on a dict, element
    membership on a list, substring on a string; other values are not
    iterable. *)
Definition pin (k : str) (data : json) : result bool :=
  match data with
  | JObj items => Ok (match lookup k items with Some _ => true | None => false end)
  | JArr items =>
      Ok (existsb (fun x => match x with JStr s => str_eqb s k | _ => false end) items)
  | JStr s => Ok (contains s k)
  | _ => Raise TypeError
  end.

(** [data[k]] for a string [k]. *)
Definition getitem (data : json) (k : str) : result json :=
  match data with
  | JObj items =>
      match lookup k items with
      | Some v => Ok v
      | None => Raise KeyError
      end
  | _ => Raise TypeError
  end.

(** [data.get(k, default)]; only a dict has the method.  [data.get(k)] is
    [get data k JNull]. *)
Definition get (data : json) (k : str) (default : json) : result json :=
  match data with
  | JObj items =>
      Ok (match lookup k items with Some v => v | None => default end)
  | _ => Raise AttributeError
  end.

(** [x.strip()]; only a string has the method. *)
Definition strip_method (x : json) : result str :=
  match x with
  | JStr s => Ok (strip s)
  | _ => Raise AttributeError
  end.

(** [int(f)] for a float: truncation towards zero. *)
Definition int_of_float (f : spec_float) : result Z :=
  match f with
  | S754_zero _ => Ok 0
  | S754_infinity _ => Raise OverflowError
  | S754_nan => Raise ValueError
  | S754_finite s m e =>
      let magnitude := Z.shiftl (Zpos m) e in
      Ok (if s then - magnitude else magnitude)
  end.

(** ** Requests and responses *)

(** What [request.get_json()] does: it returns the parsed body ([None] is
    [JNull]) or aborts the request with an HTTP error of its own (a body
    that is not JSON, a content type that is not JSON). *)
Inductive get_json : Type :=
| Parsed (data : json)
| Rejected (code : Z).

(** What the client receives. *)
Inductive response : Type :=
| Response (body : json) (status : Z)     (* return jsonify(body), status *)
| Abort (code : Z)                        (* HTTP error raised by get_json *)
| Uncaught (e : exn).                     (* exception leaving the handler *)

Definition status_code (r : response) : Z :=
  match r with
  | Response _ status => status
  | Abort code => code
  | Uncaught _ => 500
  end.

(** [{'error': msg}] *)
Definition error_body (msg : str) : json := JObj [(lit "error", JStr msg)].

(** ** AI proxy endpoints *)

Definition OPENROUTER_URL : str := lit "https://openrouter.ai/api/v1/chat/completions".
Definition MODEL : str := lit "arcee-ai/trinity-large-preview:free".

(** The arguments of one [http_requests.post(...)]. *)
Record upstream_call : Type := {
  url : str;
  headers : list (str * str);
  payload : json;
  timeout : Z
}.

(** How the [try] block of a proxy handler ends once [post] is called:
    [post], [raise_for_status] and [resp.json()] all pass, or one of them
    raises [e] with [str(e) = text]. *)
Inductive upstream_outcome : Type :=
| Responded (status : Z) (result : json)
| Raised (e : exn) (text : str).

(** What a proxy handler does besides answering. *)
Inductive event : Type :=
| Post (call : upstream_call)              (* http_requests.post was called *)
| Log_info (msg : str)
| Log_error (msg : str).

(** The call lines 72-84 (and 107-119) build. *)
Definition chat_call (OPENROUTER_API_KEY : str) (messages : json) : upstream_call :=
  {| url := OPENROUTER_URL;
     headers := [(lit "Authorization", lit "Bearer " ++ OPENROUTER_API_KEY);
                 (lit "Content-Type", lit "application/json")];
     payload := JObj [(lit "model", JStr MODEL);
                      (lit "messages", messages);
                      (lit "reasoning", JObj [(lit "enabled", JBool true)])];
     timeout := 60 |}.

(** [not data or 'messages' not in data] *)
Definition missing_messages (data : json) : result bool :=
  if negb (truthy data) then Ok true
  else present <- pin (lit "messages") data ;; Ok (negb present).

Section Proxy.

(** The module-level key, read from the environment at start-up;
    the empty string when the variable is not set. *)
Variable OPENROUTER_API_KEY : str.

(** The provider and the network, seen from the handler. *)
Variable upstream : upstream_call -> upstream_outcome.

Definition api_generate (request : get_json) : response * list event :=
  if negb (truthy (JStr OPENROUTER_API_KEY)) then
    (Response (error_body (lit "API key not configured on server")) 500, [])
  else
    match request with
    | Rejected code => (Abort code, [])
    | Parsed data =>
        match missing_messages data with
        | Raise e => (Uncaught e, [])
        | Ok true =>
            (Response (error_body (lit "Missing messages in request body")) 400, [])
        | Ok false =>
            match getitem data (lit "messages") with
            | Raise e => (Uncaught e, [])
            | Ok messages =>
                let call := chat_call OPENROUTER_API_KEY messages in
                match upstream call with
                | Responded status result =>
                    (Response result 200,
                     [Post call;
                      Log_info (lit "Generate API success: " ++ str_of_int status)])
                | Raised e text =>
                    if issubclass e Timeout then
                      (Response
                         (error_body (lit "AI service timed out. Please try again."))
                         504,
                       [Post call; Log_error (lit "Generate API timed out")])
                    else if issubclass e RequestException then
                      (Response (error_body (lit "AI service error: " ++ text)) 502,
                       [Post call; Log_error (lit "Generate API error: " ++ text)])
                    else (Uncaught e, [Post call])
                end
            end
        end
    end.

Definition api_enhance (request : get_json) : response * list event :=
  if negb (truthy (JStr OPENROUTER_API_KEY)) then
    (Response (error_body (lit "API key not configured on server")) 500, [])
  else
    match request with
    | Rejected code => (Abort code, [])
    | Parsed data =>
        match missing_messages data with
        | Raise e => (Uncaught e, [])
        | Ok true =>
            (Response (error_body (lit "Missing messages in request body")) 400, [])
        | Ok false =>
            match getitem data (lit "messages") with
            | Raise e => (Uncaught e, [])
            | Ok messages =>
                let call := chat_call OPENROUTER_API_KEY messages in
                match upstream call with
                | Responded status result =>
                    (Response result 200,
                     [Post call;
                      Log_info (lit "Enhance API success: " ++ str_of_int status)])
                | Raised e text =>
                    if issubclass e Timeout then
                      (Response
                         (error_body (lit "AI service timed out. Please try again."))
                         504,
                       [Post call; Log_error (lit "Enhance API timed out")])
                    else if issubclass e RequestException then
                      (Response (error_body (lit "AI service error: " ++ text)) 502,
                       [Post call; Log_error (lit "Enhance API error: " ++ text)])
                    else (Uncaught e, [Post call])
                end
            end
        end
    end.

(** [GET /api/health] *)
Definition health : response :=
  Response (JObj [(lit "status", JStr (lit "ok"));
                  (lit "api_key_configured", JBool (truthy (JStr OPENROUTER_API_KEY)));
                  (lit "model", JStr MODEL)]) 200.

End Proxy.

(** The handler called [http_requests.post]. *)
Definition is_post (ev : event) : bool :=
  match ev with
  | Post _ => true
  | _ => false
  end.

Definition upstream_calls (trace : list event) : list event := filter is_post trace.

(** The body is falsy, or is a dict without the key [messages]. *)
Definition lacks_messages (data : json) : Prop :=
  truthy data = false \/
  exists items, data = JObj items /\ lookup (lit "messages") items = None.

(** The log lines of a trace: everything but the upstream calls, whose
    Authorization header carries the key by construction. *)
Definition logs (trace : list event) : list event :=
  filter (fun ev => negb (is_post ev)) trace.

(** ** Durable storage: the file [reviews.json] *)

(** What the file holds, by how [open(..., encoding='utf-8')] and
    [json.load] react to it. *)
Inductive content : Type :=
| NotUtf8                 (* bytes that are not UTF-8: reading raises UnicodeDecodeError *)
| NotJson                 (* text that is not JSON: json.load raises JSONDecodeError *)
| Unloadable (e : exn)    (* any other content on which reading or json.load raises [e]:
                             RecursionError for text nested too deep, ValueError for
                             an integer literal of more than 4300 digits *)
| Json (value : json).    (* text that json.load reads as [value], as json.dump writes it *)

(** [file] is [None] when [os.path.exists(REVIEWS_FILE)] is false.
    [readable] and [writable] say whether the process may open the path
    for reading and for writing. *)
Record storage : Type := {
  file : option content;
  readable : bool;
  writable : bool
}.

Definition with_file (st : storage) (c : content) : storage :=
  {| file := Some c; readable := readable st; writable := writable st |}.

(** Lines 33-34: [with open(REVIEWS_FILE, 'r', encoding='utf-8') as f:
    return json.load(f)], on a file that exists. *)
Definition open_and_load (st : storage) (c : content) : result json :=
  if readable st then
    match c with
    | NotUtf8 => Raise UnicodeDecodeError
    | NotJson => Raise JSONDecodeError
    | Unloadable e => Raise e
    | Json value => Ok value
    end
  else Raise PermissionError.

Definition _load_reviews (st : storage) : result json :=
  match file st with
  | Some c =>
      match open_and_load st c with
      | Ok reviews => Ok reviews
      | Raise e =>
          if caught e [JSONDecodeError; OSError] then Ok (JArr []) else Raise e
      end
  | None => Ok (JArr [])
  end.

(** [json.dump] writes the text piece by piece; a string that UTF-8 cannot
    encode stops it half-way and leaves a truncated text behind.  The
    integers of [reviews] are taken to be ones that [json.dump] can print
    (at most 4300 digits), as those of every value [post_review] passes
    are: the clock's, the clamped rating, and what [json.load] returned. *)
Definition _save_reviews (reviews : json) (st : storage) : result unit * storage :=
  if writable st then
    if encodable reviews then (Ok tt, with_file st (Json reviews))
    else (Raise UnicodeEncodeError, with_file st NotJson)
  else (Raise PermissionError, st).

(** ** Reviews endpoints *)

(** [GET /api/reviews] *)
Definition get_reviews (st : storage) : response :=
  match _load_reviews st with
  | Ok reviews => Response reviews 200
  | Raise e => Uncaught e
  end.

(** The dict lines 145-151 build. *)
Record Review : Type := {
  id : Z;
  name : str;
  rating : Z;
  feedback : str;
  timestamp : str
}.

Definition review_json (r : Review) : json :=
  JObj [(lit "id", JInt (id r));
        (lit "name", JStr (name r));
        (lit "rating", JInt (rating r));
        (lit "feedback", JStr (feedback r));
        (lit "timestamp", JStr (timestamp r))].

(** The clock, as line 146 and line 150 read it. *)
Record clock : Type := {
  now_ms : Z;               (* int(time.time() * 1000) *)
  now_text : str            (* datetime.now().strftime('%Y-%m-%d %H:%M:%S') *)
}.

(** [reviews.insert(0, review)]; only a list has the method. *)
Definition insert0 (reviews : json) (review : json) : result json :=
  match reviews with
  | JArr items => Ok (JArr (review :: items))
  | _ => Raise AttributeError
  end.

(** A field that [(x or default).strip()] accepts: falsy, or a string. *)
Definition text_or_falsy (v : json) : Prop :=
  truthy v = false \/ exists s, v = JStr s.

(** [{'success': True, 'review': review}] *)
Definition created_body (r : Review) : json :=
  JObj [(lit "success", JBool true); (lit "review", review_json r)].

Section Reviews.

(** [int(s)] for a string: the integer the decimal literal [s] denotes,
    [None] when [int] raises ValueError. *)
Variable int_of_str : str -> option Z.

(** [int(x)] *)
Definition int (x : json) : result Z :=
  match x with
  | JBool b => Ok (if b then 1 else 0)
  | JInt n => Ok n
  | JFloat f => int_of_float f
  | JStr s =>
      match int_of_str s with
      | Some n => Ok n
      | None => Raise ValueError
      end
  | JNull | JArr _ | JObj _ => Raise TypeError
  end.

(** Lines 145-151. *)
Definition make_review (data : json) (clk : clock) : result Review :=
  name_in <- get data (lit "name") JNull ;;
  name_out <- strip_method (por name_in (JStr (lit "Anonymous"))) ;;
  rating_in <- get data (lit "rating") (JInt 5) ;;
  rating_int <- int rating_in ;;
  feedback_in <- get data (lit "feedback") JNull ;;
  feedback_out <- strip_method (por feedback_in (JStr (lit ""))) ;;
  Ok {| id := now_ms clk;
        name := name_out;
        rating := Z.max 1 (Z.min 5 rating_int);
        feedback := feedback_out;
        timestamp := now_text clk |}.

(** [POST /api/reviews] *)
Definition post_review (request : get_json) (clk : clock) (st : storage)
  : response * storage :=
  match request with
  | Rejected code => (Abort code, st)
  | Parsed data =>
      if negb (truthy data) then
        (Response (error_body (lit "No data provided")) 400, st)
      else
        match make_review data clk with
        | Raise e => (Uncaught e, st)
        | Ok review =>
            match _load_reviews st with
            | Raise e => (Uncaught e, st)
            | Ok reviews =>
                match insert0 reviews (review_json review) with
                | Raise e => (Uncaught e, st)
                | Ok reviews' =>
                    match _save_reviews reviews' st with
                    | (Raise e, st') => (Uncaught e, st')
                    | (Ok _, st') => (Response (created_body review) 201, st')
                    end
                end
            end
        end
  end.

End Reviews.

(** A conversion to instantiate [int_of_str] with: Python's [int] on ASCII
    text, that is an optional sign and decimal digits, single underscores
    allowed between digits, at most 4300 digits, whitespace around it
    ignored.  Digits outside ASCII, which [int] also reads, are not
    covered. *)
Definition is_ascii_digit (c : codepoint) : bool :=
  (48 <=? Z.of_N c) && (Z.of_N c <=? 57).

(** The digits that follow a digit. *)
Fixpoint ascii_digits (acc : Z) (s : str) : option Z :=
  match s with
  | [] => Some acc
  | c :: s' =>
      if is_ascii_digit c then ascii_digits (10 * acc + (Z.of_N c - 48)) s'
      else if N.eqb c 95 then
        match s' with
        | d :: s'' =>
            if is_ascii_digit d then ascii_digits (10 * acc + (Z.of_N d - 48)) s''
            else None
        | [] => None
        end
      else None
  end.

Definition ascii_literal (s : str) : option Z :=
  match s with
  | d :: s' =>
      if is_ascii_digit d
      then if (List.length (filter is_ascii_digit s) <=? 4300)%nat
           then ascii_digits (Z.of_N d - 48) s'
           else None
      else None
  | [] => None
  end.

Definition ascii_decimal (s : str) : option Z :=
  match strip s with
  | [] => None
  | c :: digits =>
      if N.eqb c 45 then option_map Z.opp (ascii_literal digits)
      else if N.eqb c 43 then ascii_literal digits
      else ascii_literal (c :: digits)
  end.

(** Sample values for concrete runs. *)
Definition sample_clock : clock :=
  {| now_ms := 1762258800000; now_text := lit "2026-11-04 12:20:00" |}.

Definition empty_store : storage :=
  {| file := None; readable := true; writable := true |}.

(** ** Start-up: lines 24 and 171-178 *)

(** [s[0]] and [s[-1]], when [s] is not empty. *)
Definition first_char (s : str) : option codepoint := hd_error s.
Definition last_char (s : str) : option codepoint := hd_error (rev s).

(** The arguments of [app.run]. *)
Record run_args : Type := {
  host : str;
  port : Z;
  debug : bool
}.

(** What the main block does: the lines it prints, then [app.run]. *)
Record startup : Type := {
  printed : list str;
  run : run_args
}.

Section Startup.

(** [os.environ], after [load_dotenv()]. *)
Variable environ : str -> option str.

Variable int_of_str : str -> option Z.

(** [os.environ.get(k)] *)
Definition environ_get (k : str) : json :=
  match environ k with
  | Some v => JStr v
  | None => JNull
  end.

(** Line 24: [os.getenv('OPENROUTER_API_KEY', '')]. *)
Definition getenv_api_key : str :=
  match environ (lit "OPENROUTER_API_KEY") with
  | Some v => v
  | None => []
  end.

(** The four [print] calls of lines 174-177, for the key and the port. *)
Definition banner (OPENROUTER_API_KEY : str) (port_number : Z) : list str :=
  [ [10%N] ++ lit "  " ++ [9993%N; 65039%N] ++ lit "  MailSmith.AI " ++ [8212%N]
      ++ lit " Backend Server";
    lit "  " ++ [128273%N] ++ lit " API Key: " ++
      (if truthy (JStr OPENROUTER_API_KEY) then lit "configured"
       else [9888%N; 65039%N] ++ lit "  MISSING " ++ [8212%N] ++
            lit " set OPENROUTER_API_KEY in .env or environment");
    lit "  " ++ [127760%N] ++ lit " http://localhost:" ++ str_of_int port_number;
    lit "  " ++ [128203%N] ++ lit " Reviews viewer: http://localhost:" ++
      str_of_int port_number ++ lit "/reviews" ++ [10%N] ].

(** Lines 172-178. *)
Definition main : result startup :=
  port_number <-
    int int_of_str
      (match environ (lit "PORT") with Some v => JStr v | None => JInt 5000 end) ;;
  let is_production :=
    por (environ_get (lit "RENDER")) (environ_get (lit "RAILWAY_ENVIRONMENT")) in
  Ok {| printed := banner getenv_api_key port_number;
        run := {| host := lit "0.0.0.0";
                  port := port_number;
                  debug := negb (truthy is_production) |} |}.

End Startup.

(** * Properties *)

(** ** Strings *)

Lemma str_eqb_refl (s : str) : str_eqb s s = true.
Proof.
  induction s as [|c s IH]; simpl; [reflexivity|].
  now rewrite N.eqb_refl, IH.
Qed.

Lemma str_eqb_eq (a b : str) : str_eqb a b = true <-> a = b.
Proof.
  split.
  - revert b; induction a as [|x a IH]; intros [|y b] H; simpl in H;
      try discriminate; [reflexivity|].
    apply andb_true_iff in H as [Hxy Hab].
    apply N.eqb_eq in Hxy. now rewrite Hxy, (IH b Hab).
  - intros ->. apply str_eqb_refl.
Qed.

Lemma truthy_str (s : str) : truthy (JStr s) = true <-> s <> [].
Proof.
  simpl. destruct s; simpl; split; intro H; congruence.
Qed.

Lemma lstrip_all_space (s : str) : forallb isspace s = true -> lstrip s = [].
Proof.
  induction s as [|c s IH]; simpl; [reflexivity|].
  intro H. apply andb_true_iff in H as [Hc Hs].
  rewrite Hc. exact (IH Hs).
Qed.

(** A string of whitespace only strips to the empty string. *)
Lemma strip_all_space (s : str) : forallb isspace s = true -> strip s = [].
Proof.
  intro H. unfold strip. rewrite (lstrip_all_space s H). reflexivity.
Qed.

(** ** Exceptions: what the [except] clauses of the source catch *)

Lemma load_except_clause (e : exn) :
  caught e [JSONDecodeError; OSError] = true <->
  e = JSONDecodeError \/ e = OSError \/ e = PermissionError \/
  issubclass e RequestException = true.
Proof.
  destruct e; vm_compute; split; intro H; try reflexivity; try discriminate;
    try (now auto);
    repeat (destruct H as [H|H]; try discriminate).
Qed.

(** ** The proxy endpoints *)

Lemma configured_key (key : str) : key <> [] -> negb (truthy (JStr key)) = false.
Proof.
  intro H. apply truthy_str in H. now rewrite H.
Qed.

Lemma lacks_messages_missing (data : json) :
  lacks_messages data -> missing_messages data = Ok true.
Proof.
  unfold missing_messages. intros [H | [items [-> H]]].
  - now rewrite H.
  - destruct (truthy (JObj items)); simpl; [|reflexivity]. now rewrite H.
Qed.

(** A dict that has the key [messages] passes the check and is subscripted. *)
Lemma has_messages (items : list (str * json)) (messages : json) :
  lookup (lit "messages") items = Some messages ->
  missing_messages (JObj items) = Ok false /\
  getitem (JObj items) (lit "messages") = Ok messages.
Proof.
  intro H. unfold missing_messages, getitem, pin. rewrite H.
  destruct items as [|kv items]; [discriminate|]. simpl. auto.
Qed.

(** The three ways a handler leaves the [try] block after an exception. *)
Ltac except_cases e :=
  destruct (issubclass e Timeout);
  [ | destruct (issubclass e RequestException) ].

(** C2. With no credential configured (the empty key), every POST to
    /api/generate and to /api/enhance, whatever the request and whatever
    the upstream would do, is answered 500 with the fixed message
    "API key not configured on server", and the handler calls nothing:
    no upstream request, no log line. *)
Theorem no_credential_answers_500 :
  forall (upstream : upstream_call -> upstream_outcome) (request : get_json),
    api_generate [] upstream request =
      (Response (error_body (lit "API key not configured on server")) 500, []) /\
    api_enhance [] upstream request =
      (Response (error_body (lit "API key not configured on server")) 500, []).
Proof.
  intros upstream request. split; reflexivity.
Qed.

(** C10. The credential check comes first: with no credential configured
    the status is 500 for every request, also one whose body [get_json]
    rejects, one whose body is empty and one without [messages]; it is
    never the 400 of the validation branch. *)
Theorem credential_check_precedes_validation :
  forall (upstream : upstream_call -> upstream_outcome) (request : get_json),
    status_code (fst (api_generate [] upstream request)) = 500 /\
    status_code (fst (api_enhance [] upstream request)) = 500 /\
    (status_code (fst (api_generate [] upstream request)) =? 400) = false /\
    (status_code (fst (api_enhance [] upstream request)) =? 400) = false.
Proof.
  intros upstream request.
  destruct request as [data | code]; cbn; repeat split; reflexivity.
Qed.

(** C8. The two proxy endpoints answer alike: for every key, request and
    upstream behaviour the responses (status and body) are equal, and so are
    the upstream calls made. *)
Theorem generate_enhance_same_response :
  forall (key : str) (upstream : upstream_call -> upstream_outcome)
         (request : get_json),
    fst (api_generate key upstream request) = fst (api_enhance key upstream request) /\
    upstream_calls (snd (api_generate key upstream request)) =
      upstream_calls (snd (api_enhance key upstream request)).
Proof.
  intros key upstream request. unfold api_generate, api_enhance.
  destruct (negb (truthy (JStr key))); [split; reflexivity|].
  destruct request as [data | code]; [|split; reflexivity].
  destruct (missing_messages data) as [[|]|e]; try (split; reflexivity).
  destruct (getitem data (lit "messages")) as [messages|e]; [|split; reflexivity].
  cbv zeta.
  destruct (upstream (chat_call key messages)) as [status result | e text];
    [split; reflexivity|].
  except_cases e; split; reflexivity.
Qed.

(** C3, as the code has it.  With a credential configured, a request whose
    parsed body is falsy or is a dict without [messages] is answered 400
    "Missing messages in request body" and nothing is called.  The type of
    [messages] is not looked at: a dict that has the key, whatever its value,
    is forwarded in one upstream call and is never answered 400. *)
Theorem messages_presence_is_the_only_check :
  forall (key : str) (upstream : upstream_call -> upstream_outcome) (data : json),
    key <> [] ->
    (lacks_messages data ->
       api_generate key upstream (Parsed data) =
         (Response (error_body (lit "Missing messages in request body")) 400, []) /\
       api_enhance key upstream (Parsed data) =
         (Response (error_body (lit "Missing messages in request body")) 400, [])) /\
    (forall items messages,
       data = JObj items ->
       lookup (lit "messages") items = Some messages ->
       upstream_calls (snd (api_generate key upstream (Parsed data))) =
         [Post (chat_call key messages)] /\
       upstream_calls (snd (api_enhance key upstream (Parsed data))) =
         [Post (chat_call key messages)] /\
       status_code (fst (api_generate key upstream (Parsed data))) <> 400 /\
       status_code (fst (api_enhance key upstream (Parsed data))) <> 400).
Proof.
  intros key upstream data Hkey. split.
  - intro Hlacks. unfold api_generate, api_enhance.
    rewrite (configured_key key Hkey), (lacks_messages_missing data Hlacks).
    split; reflexivity.
  - intros items messages -> Hlook.
    destruct (has_messages items messages Hlook) as [Hmiss Hget].
    unfold api_generate, api_enhance.
    rewrite (configured_key key Hkey), Hmiss, Hget. cbv zeta.
    destruct (upstream (chat_call key messages)) as [status result | e text].
    + cbn. repeat split; discriminate.
    + except_cases e; cbn; repeat split; discriminate.
Qed.

Lemma messages_presence_is_the_only_check_witness :
  api_generate (lit "sk-or-v1-0123") (fun _ => Raised ConnectionError (lit "refused"))
    (Parsed (JObj [(lit "prompt", JStr (lit "hello"))])) =
    (Response (error_body (lit "Missing messages in request body")) 400, []).
Proof.
  refine (proj1 (proj1 (messages_presence_is_the_only_check
                          (lit "sk-or-v1-0123")
                          (fun _ => Raised ConnectionError (lit "refused"))
                          (JObj [(lit "prompt", JStr (lit "hello"))]) _) _)).
  - discriminate.
  - right. eexists. split; reflexivity.
Defined.

(** C3 as stated fails: with a credential configured, the body
    [{"messages": 5}], whose [messages] is not a sequence, is not answered
    400 without an upstream call; it is sent upstream, and the upstream
    answer comes back as 200. *)
Lemma non_sequence_messages_is_forwarded :
  let key := lit "sk-or-v1-0123" in
  let upstream := fun _ : upstream_call => Responded 200 (JObj []) in
  let request := Parsed (JObj [(lit "messages", JInt 5)]) in
  api_generate key upstream request =
    (Response (JObj []) 200,
     [Post (chat_call key (JInt 5)); Log_info (lit "Generate API success: 200")]) /\
  api_enhance key upstream request =
    (Response (JObj []) 200,
     [Post (chat_call key (JInt 5)); Log_info (lit "Enhance API success: 200")]) /\
  ~ (status_code (fst (api_generate key upstream request)) = 400 /\
     upstream_calls (snd (api_generate key upstream request)) = []).
Proof.
  repeat split; try (vm_compute; reflexivity).
  intros [Hstatus _]. vm_compute in Hstatus. discriminate.
Qed.

(** The handlers never write the key themselves:
    under any two configured keys, and an upstream that behaves the same
    under both, each proxy endpoint gives the same response and the same log
    lines, and the health endpoint the same answer.  The 200 body is the
    upstream result and the 502 message is "AI service error: " followed by
    the text of the upstream exception, both as received. *)
Theorem responses_independent_of_key :
  forall (key1 key2 : str) (up1 up2 : upstream_call -> upstream_outcome)
         (request : get_json),
    key1 <> [] -> key2 <> [] ->
    (forall messages, up1 (chat_call key1 messages) = up2 (chat_call key2 messages)) ->
    fst (api_generate key1 up1 request) = fst (api_generate key2 up2 request) /\
    logs (snd (api_generate key1 up1 request)) =
      logs (snd (api_generate key2 up2 request)) /\
    fst (api_enhance key1 up1 request) = fst (api_enhance key2 up2 request) /\
    logs (snd (api_enhance key1 up1 request)) =
      logs (snd (api_enhance key2 up2 request)) /\
    health key1 = health key2 /\
    (forall items messages status result,
       request = Parsed (JObj items) ->
       lookup (lit "messages") items = Some messages ->
       up1 (chat_call key1 messages) = Responded status result ->
       fst (api_generate key1 up1 request) = Response result 200 /\
       fst (api_enhance key1 up1 request) = Response result 200) /\
    (forall items messages e text,
       request = Parsed (JObj items) ->
       lookup (lit "messages") items = Some messages ->
       up1 (chat_call key1 messages) = Raised e text ->
       issubclass e Timeout = false ->
       issubclass e RequestException = true ->
       fst (api_generate key1 up1 request) =
         Response (error_body (lit "AI service error: " ++ text)) 502 /\
       fst (api_enhance key1 up1 request) =
         Response (error_body (lit "AI service error: " ++ text)) 502).
Proof.
  intros key1 key2 up1 up2 request H1 H2 Hup.
  assert (Hsame :
    fst (api_generate key1 up1 request) = fst (api_generate key2 up2 request) /\
    logs (snd (api_generate key1 up1 request)) =
      logs (snd (api_generate key2 up2 request)) /\
    fst (api_enhance key1 up1 request) = fst (api_enhance key2 up2 request) /\
    logs (snd (api_enhance key1 up1 request)) =
      logs (snd (api_enhance key2 up2 request)) /\
    health key1 = health key2).
  { unfold api_generate, api_enhance, health.
    rewrite (configured_key key1 H1), (configured_key key2 H2).
    assert (T1 := proj2 (truthy_str key1) H1).
    assert (T2 := proj2 (truthy_str key2) H2). rewrite T1, T2.
    destruct request as [data | code]; [|repeat split; reflexivity].
    destruct (missing_messages data) as [[|]|e]; try (repeat split; reflexivity).
    destruct (getitem data (lit "messages")) as [messages|e];
      [|repeat split; reflexivity].
    cbv zeta. rewrite (Hup messages).
    destruct (up2 (chat_call key2 messages)) as [status result | e text];
      [repeat split; reflexivity|].
    except_cases e; repeat split; reflexivity. }
  destruct Hsame as (G & LG & E & LE & Hh).
  repeat (split; [assumption|]).
  split.
  - intros items messages status result -> Hlook Hout.
    destruct (has_messages items messages Hlook) as [Hmiss Hget].
    unfold api_generate, api_enhance.
    rewrite (configured_key key1 H1), Hmiss, Hget. cbv zeta. rewrite Hout.
    split; reflexivity.
  - intros items messages e text -> Hlook Hout Htimeout Hrequest.
    destruct (has_messages items messages Hlook) as [Hmiss Hget].
    unfold api_generate, api_enhance.
    rewrite (configured_key key1 H1), Hmiss, Hget. cbv zeta.
    rewrite Hout, Htimeout, Hrequest. split; reflexivity.
Qed.

Lemma responses_independent_of_key_witness :
  fst (api_generate (lit "sk-or-v1-0123")
         (fun _ => Raised HTTPError (lit "401 Client Error"))
         (Parsed (JObj [(lit "messages", JArr [])]))) =
  fst (api_generate (lit "sk-or-v1-4567")
         (fun _ => Raised HTTPError (lit "401 Client Error"))
         (Parsed (JObj [(lit "messages", JArr [])]))).
Proof.
  refine (proj1 (responses_independent_of_key
                   (lit "sk-or-v1-0123") (lit "sk-or-v1-4567")
                   (fun _ => Raised HTTPError (lit "401 Client Error"))
                   (fun _ => Raised HTTPError (lit "401 Client Error"))
                   (Parsed (JObj [(lit "messages", JArr [])])) _ _ _)).
  - discriminate.
  - discriminate.
  - intro messages. reflexivity.
Defined.

(** ** The review store *)

(** What [_load_reviews] gives back after a write that went through. *)
Lemma load_after_save (reviews : json) (st st' : storage) :
  readable st = true ->
  _save_reviews reviews st = (Ok tt, st') ->
  _load_reviews st' = Ok reviews /\ readable st' = true.
Proof.
  unfold _save_reviews. intros Hr H.
  destruct (writable st); [|discriminate].
  destruct (encodable reviews); [|discriminate].
  injection H as <-. unfold _load_reviews, open_and_load. simpl.
  now rewrite Hr.
Qed.

(** The permissive read: a missing file, a file the process may not open
    and a file whose text is not JSON all read as the empty list. *)
Lemma load_permissive (st : storage) :
  file st = None \/ readable st = false \/ file st = Some NotJson ->
  _load_reviews st = Ok (JArr []).
Proof.
  unfold _load_reviews, open_and_load.
  intros [H | [H | H]].
  - now rewrite H.
  - rewrite H. destruct (file st); reflexivity.
  - rewrite H. destruct (readable st); reflexivity.
Qed.

Section ReviewFacts.

Variable int_of_str : str -> option Z.

(** The fields of a review that [make_review] builds, read off the
    submitted dict. *)
Lemma make_review_inv (data : json) (clk : clock) (r : Review) :
  make_review int_of_str data clk = Ok r ->
  exists items n,
    data = JObj items /\
    strip_method
      (por (match lookup (lit "name") items with Some v => v | None => JNull end)
           (JStr (lit "Anonymous"))) = Ok (name r) /\
    int int_of_str
      (match lookup (lit "rating") items with Some v => v | None => JInt 5 end) = Ok n /\
    rating r = Z.max 1 (Z.min 5 n) /\
    strip_method
      (por (match lookup (lit "feedback") items with Some v => v | None => JNull end)
           (JStr (lit ""))) = Ok (feedback r) /\
    id r = now_ms clk /\ timestamp r = now_text clk.
Proof.
  unfold make_review, get. intro H.
  destruct data as [| | | | |?|items]; try discriminate H.
  cbn [bind] in H.
  destruct (strip_method _) as [name_out|] eqn:Hname in H; [|discriminate H].
  cbn [bind] in H.
  destruct (int int_of_str _) as [n|] eqn:Hint in H; [|discriminate H].
  cbn [bind] in H.
  destruct (strip_method _) as [feedback_out|] eqn:Hfeedback in H; [|discriminate H].
  cbn [bind] in H. injection H as <-.
  exists items, n. cbn. repeat split; assumption.
Qed.

(** A submission answered 201: the body was a non-empty dict, the review
    was built, the stored value was a list, the write went through, and
    the file now holds the review in front of that list. *)
Lemma post_review_created (data : json) (clk : clock) (st st' : storage)
    (resp : response) :
  post_review int_of_str (Parsed data) clk st = (resp, st') ->
  status_code resp = 201 ->
  exists r old,
    make_review int_of_str data clk = Ok r /\
    _load_reviews st = Ok (JArr old) /\
    _save_reviews (JArr (review_json r :: old)) st = (Ok tt, st') /\
    resp = Response (created_body r) 201 /\
    st' = with_file st (Json (JArr (review_json r :: old))).
Proof.
  unfold post_review. intros H Hstatus.
  destruct (negb (truthy data)).
  { injection H as <- <-. discriminate Hstatus. }
  destruct (make_review int_of_str data clk) as [r|e].
  2:{ injection H as <- <-. discriminate Hstatus. }
  destruct (_load_reviews st) as [reviews|e].
  2:{ injection H as <- <-. discriminate Hstatus. }
  destruct reviews as [| | | | |old|?]; cbn [insert0] in H;
    try (injection H as <- <-; discriminate Hstatus).
  destruct (_save_reviews (JArr (review_json r :: old)) st) as [[[]|e] st1] eqn:Hsave.
  2:{ injection H as <- <-. discriminate Hstatus. }
  injection H as <- <-.
  exists r, old. repeat split; try reflexivity; try exact Hsave.
  unfold _save_reviews in Hsave.
  destruct (writable st); [|discriminate Hsave].
  destruct (encodable _); [|discriminate Hsave].
  now injection Hsave as <-.
Qed.

Lemma strip_method_por (v : json) (default : str) :
  text_or_falsy v -> exists s, strip_method (por v (JStr default)) = Ok s.
Proof.
  unfold por. intros [H | [s ->]].
  - rewrite H. eexists. reflexivity.
  - destruct (truthy (JStr s)); eexists; reflexivity.
Qed.

(** [make_review] builds a review as soon as the name and the feedback are
    absent, falsy or strings and the rating converts. *)
Lemma make_review_succeeds (items : list (str * json)) (clk : clock) (n : Z) :
  text_or_falsy (match lookup (lit "name") items with Some v => v | None => JNull end) ->
  int int_of_str
    (match lookup (lit "rating") items with Some v => v | None => JInt 5 end) = Ok n ->
  text_or_falsy
    (match lookup (lit "feedback") items with Some v => v | None => JNull end) ->
  exists r, make_review int_of_str (JObj items) clk = Ok r /\
            rating r = Z.max 1 (Z.min 5 n).
Proof.
  intros Hname Hint Hfeedback. unfold make_review, get. cbn [bind].
  destruct (strip_method_por _ (lit "Anonymous") Hname) as [name_out ->].
  cbn [bind]. rewrite Hint. cbn [bind].
  destruct (strip_method_por _ (lit "") Hfeedback) as [feedback_out ->].
  cbn [bind]. eexists. split; reflexivity.
Qed.

(** A non-empty dict from which a review is built is stored and answered
    201, provided the stored value reads as a list and the write goes
    through. *)
Lemma post_review_succeeds (items : list (str * json)) (clk : clock)
    (st : storage) (r : Review) (old : list json) :
  items <> [] ->
  make_review int_of_str (JObj items) clk = Ok r ->
  _load_reviews st = Ok (JArr old) ->
  writable st = true ->
  encodable (JArr (review_json r :: old)) = true ->
  post_review int_of_str (Parsed (JObj items)) clk st =
    (Response (created_body r) 201,
     with_file st (Json (JArr (review_json r :: old)))).
Proof.
  intros Hitems Hmake Hload Hwritable Hencodable. unfold post_review.
  destruct items as [|kv items]; [congruence|].
  cbn [truthy negb]. rewrite Hmake, Hload. cbn [insert0].
  unfold _save_reviews. rewrite Hwritable, Hencodable. reflexivity.
Qed.

(** A write that is refused leaves the file as it was. *)
Lemma post_review_refused_write (data : json) (clk : clock) (st : storage) :
  writable st = false ->
  snd (post_review int_of_str (Parsed data) clk st) = st.
Proof.
  intro Hwritable. unfold post_review.
  destruct (negb (truthy data)); [reflexivity|].
  destruct (make_review int_of_str data clk); [|reflexivity].
  destruct (_load_reviews st) as [reviews|]; [|reflexivity].
  destruct (insert0 reviews _); [|reflexivity].
  unfold _save_reviews. rewrite Hwritable. reflexivity.
Qed.

(** C1. Whenever a submission is stored (answered 201), the rating of
    the stored review lies in [1, 5]: an absent rating gives 5, and a
    rating that [int] turns into [n] gives 1 when [n < 1], 5 when [n > 5]
    and [n] itself in between. *)
Theorem stored_rating_in_range (data : json) (clk : clock) (st st' : storage)
    (resp : response) :
  post_review int_of_str (Parsed data) clk st = (resp, st') ->
  status_code resp = 201 ->
  exists r old items,
    data = JObj items /\
    resp = Response (created_body r) 201 /\
    file st' = Some (Json (JArr (review_json r :: old))) /\
    1 <= rating r <= 5 /\
    (lookup (lit "rating") items = None -> rating r = 5) /\
    (forall v n,
       lookup (lit "rating") items = Some v ->
       int int_of_str v = Ok n ->
       (n < 1 -> rating r = 1) /\
       (5 < n -> rating r = 5) /\
       (1 <= n <= 5 -> rating r = n)).
Proof.
  intros Hpost Hstatus.
  destruct (post_review_created data clk st st' resp Hpost Hstatus)
    as (r & old & Hmake & _ & _ & Hresp & Hst).
  destruct (make_review_inv data clk r Hmake)
    as (items & n & Hdata & _ & Hint & Hrating & _).
  exists r, old, items.
split; [exact Hdata|]. split; [exact Hresp|].
split; [rewrite Hst; reflexivity|].
split; [rewrite Hrating; lia|].
split.
- intro Habsent. rewrite Habsent in Hint. cbn in Hint.
  injection Hint as <-. rewrite Hrating. reflexivity.
- intros v m Hv Hm. rewrite Hv, Hm in Hint. injection Hint as <-.
  rewrite Hrating. lia.
Qed.

(** C4, as the code has it.  Whenever a submission is stored, the stored
    name is "Anonymous" when the name is absent or falsy (null, the empty
    string); a non-empty string is stored stripped, so a name of
    whitespace only is stored as the empty string. *)
Theorem stored_name_default_then_strip (data : json) (clk : clock)
    (st st' : storage) (resp : response) :
  post_review int_of_str (Parsed data) clk st = (resp, st') ->
  status_code resp = 201 ->
  exists r old items,
    data = JObj items /\
    resp = Response (created_body r) 201 /\
    file st' = Some (Json (JArr (review_json r :: old))) /\
    (lookup (lit "name") items = None -> name r = lit "Anonymous") /\
    (forall v, lookup (lit "name") items = Some v -> truthy v = false ->
               name r = lit "Anonymous") /\
    (forall s, lookup (lit "name") items = Some (JStr s) -> s <> [] ->
               name r = strip s) /\
    (forall s, lookup (lit "name") items = Some (JStr s) -> s <> [] ->
               forallb isspace s = true -> name r = []).
Proof.
  intros Hpost Hstatus.
  destruct (post_review_created data clk st st' resp Hpost Hstatus)
    as (r & old & Hmake & _ & _ & Hresp & Hst).
  destruct (make_review_inv data clk r Hmake)
    as (items & n & Hdata & Hname & _).
  assert (Hstrip : forall s, lookup (lit "name") items = Some (JStr s) ->
                             s <> [] -> name r = strip s).
  { intros s Hs Hne. rewrite Hs in Hname. unfold por in Hname.
    apply truthy_str in Hne. rewrite Hne in Hname. cbn in Hname.
    now injection Hname as <-. }
  exists r, old, items. repeat split; try assumption.
  - rewrite Hst. reflexivity.
  - intro Habsent. rewrite Habsent in Hname. cbn in Hname.
    now injection Hname as <-.
  - intros v Hv Hfalsy. rewrite Hv in Hname. unfold por in Hname.
    rewrite Hfalsy in Hname. cbn in Hname. now injection Hname as <-.
  - intros s Hs Hne Hspace. rewrite (Hstrip s Hs Hne).
    apply strip_all_space. exact Hspace.
Qed.

(** For a submission that is stored (answered 201) and a readable file
    holding the list [old], the file afterwards holds the new review at
    index 0 followed by [old], entry for entry, and reads back as such. *)
Theorem append_keeps_prior_reviews (data : json) (clk : clock)
    (st st' : storage) (resp : response) (old : list json) :
  readable st = true ->
  file st = Some (Json (JArr old)) ->
  post_review int_of_str (Parsed data) clk st = (resp, st') ->
  status_code resp = 201 ->
  exists r,
    make_review int_of_str data clk = Ok r /\
    resp = Response (created_body r) 201 /\
    file st' = Some (Json (JArr (review_json r :: old))) /\
    _load_reviews st' = Ok (JArr (review_json r :: old)) /\
    (forall i, nth_error (review_json r :: old) (S i) = nth_error old i).
Proof.
  intros Hread Hfile Hpost Hstatus.
  destruct (post_review_created data clk st st' resp Hpost Hstatus)
    as (r & old' & Hmake & Hload & Hsave & Hresp & Hst).
  assert (old' = old) as ->.
  { unfold _load_reviews, open_and_load in Hload.
    rewrite Hfile, Hread in Hload. now injection Hload as <-. }
  exists r. repeat split; try assumption.
  - rewrite Hst. reflexivity.
  - exact (proj1 (load_after_save _ st st' Hread Hsave)).
Qed.

(** C5, as the code has it.  Starting from a store the process can read,
    whose list reads as [old], three submissions A, B, C that are each
    stored (answered 201) make the next read return C, B, A followed by
    [old]. *)
Theorem newest_first (dA dB dC : json) (clkA clkB clkC : clock)
    (st0 st1 st2 st3 : storage) (respA respB respC : response) :
  readable st0 = true ->
  post_review int_of_str (Parsed dA) clkA st0 = (respA, st1) ->
  status_code respA = 201 ->
  post_review int_of_str (Parsed dB) clkB st1 = (respB, st2) ->
  status_code respB = 201 ->
  post_review int_of_str (Parsed dC) clkC st2 = (respC, st3) ->
  status_code respC = 201 ->
  exists a b c old,
    respA = Response (created_body a) 201 /\
    respB = Response (created_body b) 201 /\
    respC = Response (created_body c) 201 /\
    get_reviews st0 = Response (JArr old) 200 /\
    get_reviews st3 =
      Response (JArr (review_json c :: review_json b :: review_json a :: old)) 200.
Proof.
  intros Hread0 HA HsA HB HsB HC HsC.
  destruct (post_review_created dA clkA st0 st1 respA HA HsA)
    as (a & old & _ & Hload0 & Hsave0 & HrespA & _).
  destruct (load_after_save _ st0 st1 Hread0 Hsave0) as [Hload1 Hread1].
  destruct (post_review_created dB clkB st1 st2 respB HB HsB)
    as (b & old1 & _ & Hload1' & Hsave1 & HrespB & _).
  rewrite Hload1 in Hload1'. injection Hload1' as <-.
  destruct (load_after_save _ st1 st2 Hread1 Hsave1) as [Hload2 Hread2].
  destruct (post_review_created dC clkC st2 st3 respC HC HsC)
    as (c & old2 & _ & Hload2' & Hsave2 & HrespC & _).
  rewrite Hload2 in Hload2'. injection Hload2' as <-.
  destruct (load_after_save _ st2 st3 Hread2 Hsave2) as [Hload3 _].
  exists a, b, c, old. unfold get_reviews. rewrite Hload0, Hload3.
  repeat split; assumption.
Qed.

End ReviewFacts.

Lemma stored_rating_in_range_witness :
  exists r,
    fst (post_review ascii_decimal
           (Parsed (JObj [(lit "name", JStr (lit "Ann")); (lit "rating", JInt 99)]))
           sample_clock empty_store) = Response (created_body r) 201 /\
    1 <= rating r <= 5.
Proof.
  destruct (stored_rating_in_range ascii_decimal
              (JObj [(lit "name", JStr (lit "Ann")); (lit "rating", JInt 99)])
              sample_clock empty_store _ _ (surjective_pairing _) eq_refl)
    as (r & old & items & _ & Hresp & _ & Hrange & _).
  exists r. split; assumption.
Defined.

Lemma stored_name_default_then_strip_witness :
  exists r,
    fst (post_review ascii_decimal
           (Parsed (JObj [(lit "feedback", JStr (lit " fine ")); (lit "rating", JStr (lit "4"))]))
           sample_clock empty_store) = Response (created_body r) 201 /\
    name r = lit "Anonymous".
Proof.
  destruct (stored_name_default_then_strip ascii_decimal
              (JObj [(lit "feedback", JStr (lit " fine ")); (lit "rating", JStr (lit "4"))])
              sample_clock empty_store _ _ (surjective_pairing _) eq_refl)
    as (r & old & items & Hdata & Hresp & _ & Habsent & _).
  exists r. split; [assumption|].
  injection Hdata as <-. apply Habsent. reflexivity.
Defined.

(** C4 as stated fails: a name of three spaces is not falsy, so the
    placeholder is not taken, and stripping leaves the empty string, which
    is what gets stored. *)
Lemma whitespace_name_is_stored_empty :
  let data := JObj [(lit "name", JStr (lit "   ")); (lit "rating", JInt 4)] in
  let r := {| id := now_ms sample_clock; name := []; rating := 4;
              feedback := []; timestamp := now_text sample_clock |} in
  post_review ascii_decimal (Parsed data) sample_clock empty_store =
    (Response (created_body r) 201,
     with_file empty_store (Json (JArr [review_json r]))) /\
  name r <> lit "Anonymous".
Proof.
  split; [vm_compute; reflexivity | discriminate].
Qed.

Lemma append_keeps_prior_reviews_witness :
  exists r,
    file (snd (post_review ascii_decimal
                 (Parsed (JObj [(lit "name", JStr (lit "Ben"))]))
                 sample_clock (with_file empty_store (Json (JArr [JInt 7]))))) =
      Some (Json (JArr [review_json r; JInt 7])).
Proof.
  destruct (append_keeps_prior_reviews ascii_decimal
              (JObj [(lit "name", JStr (lit "Ben"))])
              sample_clock (with_file empty_store (Json (JArr [JInt 7]))) _ _
              [JInt 7] eq_refl eq_refl (surjective_pairing _) eq_refl)
    as (r & _ & _ & Hfile & _).
  exists r. exact Hfile.
Defined.

Lemma newest_first_witness :
  exists a b c,
    get_reviews
      (snd (post_review ascii_decimal (Parsed (JObj [(lit "name", JStr (lit "C"))]))
              sample_clock
         (snd (post_review ascii_decimal (Parsed (JObj [(lit "name", JStr (lit "B"))]))
                 sample_clock
            (snd (post_review ascii_decimal (Parsed (JObj [(lit "name", JStr (lit "A"))]))
                    sample_clock empty_store)))))) =
    Response (JArr [review_json c; review_json b; review_json a]) 200.
Proof.
  destruct (newest_first ascii_decimal
              (JObj [(lit "name", JStr (lit "A"))])
              (JObj [(lit "name", JStr (lit "B"))])
              (JObj [(lit "name", JStr (lit "C"))])
              sample_clock sample_clock sample_clock
              empty_store _ _ _ _ _ _
              eq_refl
              (surjective_pairing _) eq_refl
              (surjective_pairing _) eq_refl
              (surjective_pairing _) eq_refl)
    as (a & b & c & old & _ & _ & _ & Hold & Hnew).
  injection Hold as <-.
  exists a, b, c. exact Hnew.
Defined.

(** The read answers 200 with the empty list when the file is missing,
    may not be opened, or holds text that is not JSON. *)
Lemma get_reviews_permissive (st : storage) :
  file st = None \/ readable st = false \/ file st = Some NotJson ->
  get_reviews st = Response (JArr []) 200.
Proof.
  intro H. unfold get_reviews. now rewrite (load_permissive st H).
Qed.

(** Apart from a readable file on which reading or parsing raises
    something other than JSONDecodeError or an OSError, every state of the
    file is answered 200. *)
Lemma get_reviews_200_unless_not_utf8 (st : storage) :
  readable st = false \/
  (file st <> Some NotUtf8 /\
   forall e, file st = Some (Unloadable e) -> caught e [JSONDecodeError; OSError] = true) ->
  status_code (get_reviews st) = 200.
Proof.
  unfold get_reviews, _load_reviews, open_and_load.
  intros [H | [H He]].
  - rewrite H. destruct (file st); reflexivity.
  - destruct (file st) as [[| |e|value]|]; try reflexivity.
    + congruence.
    + destruct (readable st); reflexivity.
    + destruct (readable st); [|reflexivity].
      rewrite (He e eq_refl). reflexivity.
    + destruct (readable st); reflexivity.
Qed.

(** C7 fails on the code: a readable [reviews.json] whose bytes are not
    UTF-8 makes [json.load] raise UnicodeDecodeError, which the clause
    [except (json.JSONDecodeError, IOError)] does not catch; the exception
    leaves [get_reviews] and the request is answered 500, not 200 with an
    empty list. *)
Theorem get_reviews_fails_on_non_utf8 :
  caught UnicodeDecodeError [JSONDecodeError; OSError] = false /\
  get_reviews {| file := Some NotUtf8; readable := true; writable := true |} =
    Uncaught UnicodeDecodeError /\
  status_code
    (get_reviews {| file := Some NotUtf8; readable := true; writable := true |}) = 500.
Proof.
  repeat split.
Qed.

(** * Further properties of the code *)

(** ** [strip], as lines 147 and 149 use it *)

Lemma lstrip_first (s : str) (c : codepoint) :
  first_char (lstrip s) = Some c -> isspace c = false.
Proof.
  induction s as [|x s IH]; simpl; [discriminate|].
  destruct (isspace x) eqn:Hx; [exact IH|].
  simpl. intro H. injection H as <-. exact Hx.
Qed.

(** [lstrip] takes a run of whitespace off the front and nothing else. *)
Lemma lstrip_split (s : str) :
  exists p, s = p ++ lstrip s /\ forallb isspace p = true.
Proof.
  induction s as [|x s [p [Hs Hp]]]; simpl.
  - exists []. split; reflexivity.
  - destruct (isspace x) eqn:Hx.
    + exists (x :: p). simpl. rewrite Hx, Hp. split; [now f_equal|reflexivity].
    + exists []. split; reflexivity.
Qed.

Lemma forallb_rev (f : codepoint -> bool) (l : str) :
  forallb f (rev l) = forallb f l.
Proof.
  induction l as [|x l IH]; simpl; [reflexivity|].
  rewrite forallb_app, IH. simpl. rewrite andb_true_r. apply andb_comm.
Qed.

(** [rstrip] takes a run of whitespace off the end and nothing else. *)
Lemma rstrip_split (s : str) :
  exists w, s = rstrip s ++ w /\ forallb isspace w = true.
Proof.
  destruct (lstrip_split (rev s)) as [p [Hs Hp]].
  exists (rev p). split.
  - unfold rstrip. rewrite <- rev_app_distr, <- Hs. symmetry. apply rev_involutive.
  - now rewrite forallb_rev.
Qed.

Lemma rstrip_last (s : str) (c : codepoint) :
  last_char (rstrip s) = Some c -> isspace c = false.
Proof.
  unfold last_char, rstrip. rewrite rev_involutive. apply lstrip_first.
Qed.

Lemma lstrip_fixed (s : str) :
  (forall c, first_char s = Some c -> isspace c = false) -> lstrip s = s.
Proof.
  destruct s as [|x s]; simpl; [reflexivity|].
  intro H. now rewrite (H x eq_refl).
Qed.

(** What [strip] returns: the argument without a leading and a trailing run
    of whitespace, and with no whitespace left at either end. *)
Lemma strip_spec (s : str) :
  (exists p w, s = p ++ strip s ++ w /\
               forallb isspace p = true /\ forallb isspace w = true) /\
  (forall c, first_char (strip s) = Some c -> isspace c = false) /\
  (forall c, last_char (strip s) = Some c -> isspace c = false).
Proof.
  unfold strip.
  destruct (lstrip_split s) as [p [Hs Hp]].
  destruct (rstrip_split (lstrip s)) as [w [Hu Hw]].
  split; [|split].
  - exists p, w. split; [|split; assumption].
    rewrite <- Hu. exact Hs.
  - intros c Hc. apply (lstrip_first s).
    rewrite Hu. destruct (rstrip (lstrip s)); [discriminate|exact Hc].
  - apply rstrip_last.
Qed.

Lemma strip_idempotent (s : str) : strip (strip s) = strip s.
Proof.
  destruct (strip_spec s) as (_ & Hfirst & Hlast).
  unfold strip at 1. rewrite (lstrip_fixed (strip s) Hfirst).
  unfold rstrip. rewrite (lstrip_fixed (rev (strip s)) Hlast).
  apply rev_involutive.
Qed.

(** ** Building a review: lines 145-151 *)

Lemma strip_method_por_inv (v : json) (default s : str) :
  strip_method (por v (JStr default)) = Ok s ->
  (truthy v = false /\ s = strip default) \/
  (exists t, v = JStr t /\ t <> [] /\ s = strip t).
Proof.
  unfold por. destruct (truthy v) eqn:Hv.
  - destruct v; try discriminate. cbn. intro H. injection H as <-.
    right. eexists. repeat split. now apply truthy_str.
  - cbn. intro H. injection H as <-. left. split; reflexivity.
Qed.

Section ReviewBuilding.

Variable int_of_str : str -> option Z.

(** A review is built exactly when the body is a dict whose name and
    feedback are absent, falsy or strings and whose rating (5 when absent)
    [int] converts; a body that is not a dict raises AttributeError. *)
Theorem make_review_built_iff (data : json) (clk : clock) :
  ((exists r, make_review int_of_str data clk = Ok r) <->
   (exists items,
      data = JObj items /\
      text_or_falsy
        (match lookup (lit "name") items with Some v => v | None => JNull end) /\
      (exists n,
         int int_of_str
           (match lookup (lit "rating") items with Some v => v | None => JInt 5 end)
         = Ok n) /\
      text_or_falsy
        (match lookup (lit "feedback") items with Some v => v | None => JNull end))) /\
  (match data with
   | JObj _ => True
   | _ => make_review int_of_str data clk = Raise AttributeError
   end).
Proof.
  split; [split|].
  - intros [r Hr].
    destruct (make_review_inv int_of_str data clk r Hr)
      as (items & n & Hdata & Hname & Hint & _ & Hfeedback & _).
    exists items. split; [exact Hdata|].
    split; [|split; [exists n; exact Hint|]].
    + destruct (strip_method_por_inv _ _ _ Hname) as [[H _] | [t [H _]]];
        [left; exact H | right; exists t; exact H].
    + destruct (strip_method_por_inv _ _ _ Hfeedback) as [[H _] | [t [H _]]];
        [left; exact H | right; exists t; exact H].
  - intros (items & -> & Hname & [n Hint] & Hfeedback).
    destruct (make_review_succeeds int_of_str items clk n Hname Hint Hfeedback)
      as [r [Hr _]].
    exists r. exact Hr.
  - destruct data; first [reflexivity | exact I].
Qed.

(** Only the keys [name], [rating] and [feedback] of the body are read: two
    dicts that agree on them give the same review, whatever else they hold,
    and the stored dict has the five keys of lines 146-150, in that order. *)
Theorem make_review_reads_three_keys (items1 items2 : list (str * json))
    (clk : clock) :
  lookup (lit "name") items1 = lookup (lit "name") items2 ->
  lookup (lit "rating") items1 = lookup (lit "rating") items2 ->
  lookup (lit "feedback") items1 = lookup (lit "feedback") items2 ->
  make_review int_of_str (JObj items1) clk = make_review int_of_str (JObj items2) clk /\
  (forall r, make_review int_of_str (JObj items1) clk = Ok r ->
     exists fields,
       review_json r = JObj fields /\
       map fst fields =
         [lit "id"; lit "name"; lit "rating"; lit "feedback"; lit "timestamp"] /\
       id r = now_ms clk /\ timestamp r = now_text clk).
Proof.
  intros Hname Hrating Hfeedback. split.
  - unfold make_review, get. cbn [bind]. now rewrite Hname, Hrating, Hfeedback.
  - intros r Hr.
    destruct (make_review_inv int_of_str _ clk r Hr) as (_ & _ & _ & _ & _ & _ & _ & Hid & Hts).
    eexists. repeat split; assumption.
Qed.

(** The name and the feedback of a review never begin or end with
    whitespace. *)
Theorem review_text_has_no_outer_whitespace (data : json) (clk : clock)
    (r : Review) :
  make_review int_of_str data clk = Ok r ->
  forall c,
    (first_char (name r) = Some c -> isspace c = false) /\
    (last_char (name r) = Some c -> isspace c = false) /\
    (first_char (feedback r) = Some c -> isspace c = false) /\
    (last_char (feedback r) = Some c -> isspace c = false).
Proof.
  intros Hr c.
  destruct (make_review_inv int_of_str data clk r Hr)
    as (items & n & _ & Hname & _ & _ & Hfeedback & _).
  assert (Hn : exists t, name r = strip t).
  { destruct (strip_method_por_inv _ _ _ Hname) as [[_ H] | [t [_ [_ H]]]];
      eexists; exact H. }
  assert (Hf : exists t, feedback r = strip t).
  { destruct (strip_method_por_inv _ _ _ Hfeedback) as [[_ H] | [t [_ [_ H]]]];
      eexists; exact H. }
  destruct Hn as [tn ->]. destruct Hf as [tf ->].
  destruct (strip_spec tn) as (_ & Hn1 & Hn2).
  destruct (strip_spec tf) as (_ & Hf1 & Hf2).
  repeat split; auto.
Qed.

(** A non-empty name or feedback string loses a leading and a trailing run
    of whitespace and nothing else. *)
Theorem review_text_only_loses_outer_whitespace (items : list (str * json))
    (clk : clock) (r : Review) :
  make_review int_of_str (JObj items) clk = Ok r ->
  (forall s, lookup (lit "name") items = Some (JStr s) -> s <> [] ->
     exists p w, s = p ++ name r ++ w /\
                 forallb isspace p = true /\ forallb isspace w = true) /\
  (forall s, lookup (lit "feedback") items = Some (JStr s) -> s <> [] ->
     exists p w, s = p ++ feedback r ++ w /\
                 forallb isspace p = true /\ forallb isspace w = true).
Proof.
  intro Hr.
  destruct (make_review_inv int_of_str _ clk r Hr)
    as (items' & n & Hdata & Hname & _ & _ & Hfeedback & _).
  injection Hdata as <-.
  split; intros s Hs Hne.
  - rewrite Hs in Hname.
    destruct (strip_method_por_inv _ _ _ Hname) as [[H _] | [t [Ht [_ ->]]]].
    + apply truthy_str in Hne. congruence.
    + injection Ht as <-. exact (proj1 (strip_spec s)).
  - rewrite Hs in Hfeedback.
    destruct (strip_method_por_inv _ _ _ Hfeedback) as [[H _] | [t [Ht [_ ->]]]].
    + apply truthy_str in Hne. congruence.
    + injection Ht as <-. exact (proj1 (strip_spec s)).
Qed.

(** The feedback has no placeholder: absent or falsy it is the empty
    string, and a string is kept stripped. *)
Theorem review_feedback_default_empty (items : list (str * json)) (clk : clock)
    (r : Review) :
  make_review int_of_str (JObj items) clk = Ok r ->
  (lookup (lit "feedback") items = None -> feedback r = []) /\
  (forall v, lookup (lit "feedback") items = Some v -> truthy v = false ->
             feedback r = []) /\
  (forall s, lookup (lit "feedback") items = Some (JStr s) -> feedback r = strip s).
Proof.
  intro Hr.
  destruct (make_review_inv int_of_str _ clk r Hr)
    as (items' & n & Hdata & _ & _ & _ & Hfeedback & _).
  injection Hdata as <-.
  split; [|split].
  - intro Habsent. rewrite Habsent in Hfeedback. cbn in Hfeedback.
    now injection Hfeedback as <-.
  - intros v Hv Hfalsy. rewrite Hv in Hfeedback. unfold por in Hfeedback.
    rewrite Hfalsy in Hfeedback. cbn in Hfeedback. now injection Hfeedback as <-.
  - intros s Hs. rewrite Hs in Hfeedback.
    destruct (strip_method_por_inv _ _ _ Hfeedback) as [[H ->] | [t [Ht [_ ->]]]].
    + destruct s; [reflexivity|discriminate].
    + now injection Ht as <-.
Qed.

End ReviewBuilding.

(** ** Submitting a review: lines 139-157 *)

Section Submitting.

Variable int_of_str : str -> option Z.

(** A parsed body is answered 201, 400 or 500; 400 exactly when the body is
    falsy, with the fixed message and the file untouched. *)
Theorem post_review_statuses (data : json) (clk : clock) (st : storage) :
  In (status_code (fst (post_review int_of_str (Parsed data) clk st))) [201; 400; 500] /\
  (status_code (fst (post_review int_of_str (Parsed data) clk st)) = 400 <->
   truthy data = false) /\
  (truthy data = false ->
   post_review int_of_str (Parsed data) clk st =
     (Response (error_body (lit "No data provided")) 400, st)).
Proof.
  unfold post_review. destruct (truthy data) eqn:Hdata; cbn [negb].
  - destruct (make_review int_of_str data clk);
      [destruct (_load_reviews st) as [reviews|];
       [destruct (insert0 reviews _);
        [destruct (_save_reviews _ st) as [[[]|] ?]|]|]|];
      cbn; (split; [auto|split; [split; discriminate|discriminate]]).
  - cbn. split; [auto|]. split; [split; reflexivity|reflexivity].
Qed.

(** The file changes only by a write: after any request it is as before,
    or holds the new review in front of the list that was read (201), or,
    when the text could not be encoded, holds the broken-off text (500). *)
Theorem post_review_changes_file_only_by_writing (request : get_json)
    (clk : clock) (st st' : storage) (resp : response) :
  post_review int_of_str request clk st = (resp, st') ->
  st' = st \/
  (writable st = true /\
   ((exists r old,
       _load_reviews st = Ok (JArr old) /\
       resp = Response (created_body r) 201 /\
       st' = with_file st (Json (JArr (review_json r :: old)))) \/
    (resp = Uncaught UnicodeEncodeError /\ st' = with_file st NotJson))).
Proof.
  unfold post_review. intro H.
  destruct request as [data | code]; [|injection H as _ <-; now left].
  destruct (negb (truthy data)); [injection H as _ <-; now left|].
  destruct (make_review int_of_str data clk) as [r|]; [|injection H as _ <-; now left].
  destruct (_load_reviews st) as [reviews|] eqn:Hload; [|injection H as _ <-; now left].
  destruct reviews as [| | | | |old|?]; cbn [insert0] in H;
    try (injection H as _ <-; now left).
  unfold _save_reviews in H.
  destruct (writable st); [|injection H as _ <-; now left].
  right. split; [reflexivity|].
  destruct (encodable _); injection H as <- <-.
  - left. exists r, old. repeat split.
  - right. split; reflexivity.
Qed.

(** A stored submission on top of a file that is missing, may not be read
    or holds text that is not JSON leaves the new review alone in the
    file: what the file held before is gone. *)
Theorem post_review_resets_unreadable_file (data : json) (clk : clock)
    (st st' : storage) (resp : response) :
  file st = None \/ readable st = false \/ file st = Some NotJson ->
  post_review int_of_str (Parsed data) clk st = (resp, st') ->
  status_code resp = 201 ->
  exists r,
    resp = Response (created_body r) 201 /\
    file st' = Some (Json (JArr [review_json r])).
Proof.
  intros Hstate Hpost Hstatus.
  destruct (post_review_created int_of_str data clk st st' resp Hpost Hstatus)
    as (r & old & _ & Hload & _ & Hresp & Hst).
  rewrite (load_permissive st Hstate) in Hload. injection Hload as <-.
  exists r. split; [exact Hresp|]. rewrite Hst. reflexivity.
Qed.

(** A submission whose review, or a review stored before it, holds a string
    that UTF-8 cannot encode is answered 500 with the write broken off: the
    file is left with text that is not JSON, and the next read returns the
    empty list. *)
Theorem unencodable_review_empties_the_file (data : json) (clk : clock)
    (st : storage) (r : Review) (old : list json) :
  truthy data = true ->
  make_review int_of_str data clk = Ok r ->
  _load_reviews st = Ok (JArr old) ->
  writable st = true ->
  encodable (JArr (review_json r :: old)) = false ->
  post_review int_of_str (Parsed data) clk st =
    (Uncaught UnicodeEncodeError, with_file st NotJson) /\
  get_reviews (with_file st NotJson) = Response (JArr []) 200.
Proof.
  intros Hdata Hmake Hload Hw Henc. split.
  - unfold post_review. rewrite Hdata, Hmake, Hload. cbn [negb insert0].
    unfold _save_reviews. now rewrite Hw, Henc.
  - unfold get_reviews, _load_reviews, open_and_load. cbn.
    destruct (readable st); reflexivity.
Qed.

(** When the file may not be written, a submission that got as far as the
    write is answered 500 with PermissionError and the file is as before. *)
Theorem post_review_write_refused (data : json) (clk : clock) (st : storage)
    (r : Review) (old : list json) :
  truthy data = true ->
  make_review int_of_str data clk = Ok r ->
  _load_reviews st = Ok (JArr old) ->
  writable st = false ->
  post_review int_of_str (Parsed data) clk st = (Uncaught PermissionError, st).
Proof.
  intros Hdata Hmake Hload Hw.
  unfold post_review. rewrite Hdata, Hmake, Hload. cbn [negb insert0].
  unfold _save_reviews. now rewrite Hw.
Qed.

End Submitting.

Lemma post_review_changes_file_only_by_writing_witness :
  snd (post_review ascii_decimal (Parsed (JObj [(lit "rating", JNull)]))
         sample_clock empty_store) = empty_store.
Proof.
  destruct (post_review_changes_file_only_by_writing ascii_decimal
              (Parsed (JObj [(lit "rating", JNull)])) sample_clock empty_store
              _ _ (surjective_pairing _)) as [H | [_ [(r & old & _ & H & _) | [H _]]]].
  - exact H.
  - discriminate H.
  - discriminate H.
Defined.

Lemma post_review_resets_unreadable_file_witness :
  exists r,
    file (snd (post_review ascii_decimal (Parsed (JObj [(lit "name", JStr (lit "Cy"))]))
                 sample_clock (with_file empty_store NotJson))) =
      Some (Json (JArr [review_json r])).
Proof.
  destruct (post_review_resets_unreadable_file ascii_decimal
              (JObj [(lit "name", JStr (lit "Cy"))]) sample_clock
              (with_file empty_store NotJson) _ _
              (or_intror (or_intror eq_refl)) (surjective_pairing _) eq_refl)
    as (r & _ & Hfile).
  exists r. exact Hfile.
Defined.

Lemma unencodable_review_empties_the_file_witness :
  post_review ascii_decimal (Parsed (JObj [(lit "name", JStr [55296%N])]))
    sample_clock (with_file empty_store (Json (JArr [JInt 7]))) =
    (Uncaught UnicodeEncodeError,
     with_file (with_file empty_store (Json (JArr [JInt 7]))) NotJson).
Proof.
  exact (proj1 (unencodable_review_empties_the_file ascii_decimal
                  (JObj [(lit "name", JStr [55296%N])]) sample_clock
                  (with_file empty_store (Json (JArr [JInt 7])))
                  {| id := now_ms sample_clock; name := [55296%N]; rating := 5;
                     feedback := []; timestamp := now_text sample_clock |}
                  [JInt 7] eq_refl eq_refl eq_refl eq_refl eq_refl)).
Defined.

Lemma post_review_write_refused_witness :
  post_review ascii_decimal (Parsed (JObj [(lit "name", JStr (lit "Di"))]))
    sample_clock {| file := None; readable := true; writable := false |} =
    (Uncaught PermissionError, {| file := None; readable := true; writable := false |}).
Proof.
  exact (post_review_write_refused ascii_decimal
           (JObj [(lit "name", JStr (lit "Di"))]) sample_clock
           {| file := None; readable := true; writable := false |}
           {| id := now_ms sample_clock; name := lit "Di"; rating := 5;
              feedback := []; timestamp := now_text sample_clock |}
           [] eq_refl eq_refl eq_refl eq_refl).
Defined.

(** Witnesses for the properties of [make_review]. *)

Lemma make_review_reads_three_keys_witness :
  make_review ascii_decimal
    (JObj [(lit "name", JStr (lit "Ed")); (lit "admin", JBool true)]) sample_clock =
  make_review ascii_decimal (JObj [(lit "name", JStr (lit "Ed"))]) sample_clock.
Proof.
  exact (proj1 (make_review_reads_three_keys ascii_decimal
                  [(lit "name", JStr (lit "Ed")); (lit "admin", JBool true)]
                  [(lit "name", JStr (lit "Ed"))] sample_clock
                  eq_refl eq_refl eq_refl)).
Defined.

Lemma review_text_has_no_outer_whitespace_witness :
  isspace 70%N = false.
Proof.
  exact (proj1 (review_text_has_no_outer_whitespace ascii_decimal
                  (JObj [(lit "name", JStr (lit "  Flo "))]) sample_clock
                  {| id := now_ms sample_clock; name := lit "Flo"; rating := 5;
                     feedback := []; timestamp := now_text sample_clock |}
                  eq_refl 70%N) eq_refl).
Defined.

Lemma review_text_only_loses_outer_whitespace_witness :
  exists p w, lit "  Flo " = p ++ lit "Flo" ++ w /\
              forallb isspace p = true /\ forallb isspace w = true.
Proof.
  refine (proj1 (review_text_only_loses_outer_whitespace ascii_decimal
                   [(lit "name", JStr (lit "  Flo "))] sample_clock
                   {| id := now_ms sample_clock; name := lit "Flo"; rating := 5;
                      feedback := []; timestamp := now_text sample_clock |}
                   eq_refl) (lit "  Flo ") eq_refl _).
  discriminate.
Defined.

Lemma review_feedback_default_empty_witness :
  lit "fine" = strip (lit " fine ").
Proof.
  exact (proj2 (proj2 (review_feedback_default_empty ascii_decimal
                  [(lit "feedback", JStr (lit " fine "))] sample_clock
                  {| id := now_ms sample_clock; name := lit "Anonymous"; rating := 5;
                     feedback := lit "fine"; timestamp := now_text sample_clock |}
                  eq_refl)) (lit " fine ") eq_refl).
Defined.

(** ** The proxy endpoints: lines 62-129 *)

Lemma getitem_messages_ok (data messages : json) :
  getitem data (lit "messages") = Ok messages ->
  exists items, data = JObj items /\ lookup (lit "messages") items = Some messages.
Proof.
  destruct data as [| | | | | |items]; try discriminate. unfold getitem.
  destruct (lookup (lit "messages") items) as [v|] eqn:Hv; [|discriminate].
  intro H. injection H as <-. exists items. split; [reflexivity|exact Hv].
Qed.

(** The trace of a proxy handler holds no call at all, or holds the one
    call built from the [messages] of a dict body under a configured key. *)
Lemma api_generate_calls (key : str) (upstream : upstream_call -> upstream_outcome)
    (request : get_json) :
  upstream_calls (snd (api_generate key upstream request)) = [] \/
  (key <> [] /\
   exists items messages,
     request = Parsed (JObj items) /\
     lookup (lit "messages") items = Some messages /\
     upstream_calls (snd (api_generate key upstream request)) =
       [Post (chat_call key messages)]).
Proof.
  unfold api_generate.
  destruct (negb (truthy (JStr key))) eqn:Hkey; [now left|].
  destruct request as [data | code]; [|now left].
  destruct (missing_messages data) as [[|]|e]; try (now left).
  destruct (getitem data (lit "messages")) as [messages|e] eqn:Hget; [|now left].
  destruct (getitem_messages_ok data messages Hget) as [items [-> Hlook]].
  right. split.
  { intros ->. discriminate Hkey. }
  exists items, messages. split; [reflexivity|]. split; [exact Hlook|].
  cbv zeta.
  destruct (upstream (chat_call key messages)) as [status result | e text];
    [reflexivity|].
  except_cases e; reflexivity.
Qed.

Lemma api_enhance_calls (key : str) (upstream : upstream_call -> upstream_outcome)
    (request : get_json) :
  upstream_calls (snd (api_enhance key upstream request)) = [] \/
  (key <> [] /\
   exists items messages,
     request = Parsed (JObj items) /\
     lookup (lit "messages") items = Some messages /\
     upstream_calls (snd (api_enhance key upstream request)) =
       [Post (chat_call key messages)]).
Proof.
  unfold api_enhance.
  destruct (negb (truthy (JStr key))) eqn:Hkey; [now left|].
  destruct request as [data | code]; [|now left].
  destruct (missing_messages data) as [[|]|e]; try (now left).
  destruct (getitem data (lit "messages")) as [messages|e] eqn:Hget; [|now left].
  destruct (getitem_messages_ok data messages Hget) as [items [-> Hlook]].
  right. split.
  { intros ->. discriminate Hkey. }
  exists items, messages. split; [reflexivity|]. split; [exact Hlook|].
  cbv zeta.
  destruct (upstream (chat_call key messages)) as [status result | e text];
    [reflexivity|].
  except_cases e; reflexivity.
Qed.

Lemma proxy_calls_agree (key : str) (upstream : upstream_call -> upstream_outcome)
    (request : get_json) :
  upstream_calls (snd (api_generate key upstream request)) =
  upstream_calls (snd (api_enhance key upstream request)).
Proof.
  unfold api_generate, api_enhance.
  destruct (negb (truthy (JStr key))); [reflexivity|].
  destruct request as [data | code]; [|reflexivity].
  destruct (missing_messages data) as [[|]|e]; try reflexivity.
  destruct (getitem data (lit "messages")) as [messages|e]; [|reflexivity].
  cbv zeta.
  destruct (upstream (chat_call key messages)) as [status result | e text];
    [reflexivity|].
  except_cases e; reflexivity.
Qed.

Lemma in_upstream_calls (ev : event) (trace : list event) :
  In ev trace -> is_post ev = true -> In ev (upstream_calls trace).
Proof.
  intros Hin Hpost. apply filter_In. split; assumption.
Qed.

(** A proxy handler calls the provider only for a dict body that has
    [messages], under a configured key; it then calls once, with the fixed
    URL, model, reasoning flag and timeout, the key as bearer token and the
    [messages] value as it came.  No request is retried. *)
Theorem upstream_called_once_and_only_for_messages (key : str)
    (upstream : upstream_call -> upstream_outcome) (request : get_json)
    (call : upstream_call) :
  In (Post call) (snd (api_generate key upstream request)) \/
  In (Post call) (snd (api_enhance key upstream request)) ->
  key <> [] /\
  exists items messages,
    request = Parsed (JObj items) /\
    lookup (lit "messages") items = Some messages /\
    call = chat_call key messages /\
    upstream_calls (snd (api_generate key upstream request)) = [Post call] /\
    upstream_calls (snd (api_enhance key upstream request)) = [Post call].
Proof.
  intro Hin.
  assert (Hcalls :
    In (Post call) (upstream_calls (snd (api_generate key upstream request))) \/
    In (Post call) (upstream_calls (snd (api_enhance key upstream request)))).
  { destruct Hin as [H | H]; [left | right];
      exact (in_upstream_calls _ _ H eq_refl). }
  destruct (api_generate_calls key upstream request)
    as [Hg | (Hkey & items & messages & Hreq & Hlook & Hg)];
  destruct (api_enhance_calls key upstream request)
    as [He | (Hkey' & items' & messages' & Hreq' & Hlook' & He)].
  - rewrite Hg, He in Hcalls. destruct Hcalls as [[] | []].
  - rewrite (proxy_calls_agree key upstream request) in Hg.
    rewrite Hg in He. discriminate He.
  - rewrite (proxy_calls_agree key upstream request) in Hg.
    rewrite He in Hg. discriminate Hg.
  - rewrite Hreq in Hreq'. injection Hreq' as <-.
    rewrite Hlook in Hlook'. injection Hlook' as <-.
    assert (Hcall : call = chat_call key messages).
    { rewrite Hg, He in Hcalls.
      destruct Hcalls as [[H | []] | [H | []]]; now injection H. }
    split; [exact Hkey|]. exists items, messages. rewrite Hg, He, Hcall.
    repeat split; assumption.
Qed.

Lemma timeout_is_request_exception (e : exn) :
  issubclass e Timeout = true -> issubclass e RequestException = true.
Proof.
  destruct e; vm_compute; intro H; first [reflexivity | discriminate H].
Qed.

(** An upstream exception of class Timeout or below (ConnectTimeout, which
    is also a ConnectionError, and ReadTimeout) matches both [except]
    clauses; the first one answers: 504 with the fixed retry message, the
    exception text left out of both the answer and the log line. *)
Theorem timeout_answered_504 (key : str)
    (upstream : upstream_call -> upstream_outcome)
    (items : list (str * json)) (messages : json) (e : exn) (text : str) :
  key <> [] ->
  lookup (lit "messages") items = Some messages ->
  upstream (chat_call key messages) = Raised e text ->
  issubclass e Timeout = true ->
  issubclass e RequestException = true /\
  api_generate key upstream (Parsed (JObj items)) =
    (Response (error_body (lit "AI service timed out. Please try again.")) 504,
     [Post (chat_call key messages); Log_error (lit "Generate API timed out")]) /\
  api_enhance key upstream (Parsed (JObj items)) =
    (Response (error_body (lit "AI service timed out. Please try again.")) 504,
     [Post (chat_call key messages); Log_error (lit "Enhance API timed out")]).
Proof.
  intros Hkey Hlook Hup Htimeout.
  split; [exact (timeout_is_request_exception e Htimeout)|].
  destruct (has_messages items messages Hlook) as [Hmiss Hget].
  unfold api_generate, api_enhance.
  rewrite (configured_key key Hkey), Hmiss, Hget. cbv zeta.
  rewrite Hup, Htimeout. split; reflexivity.
Qed.

Lemma timeout_answered_504_witness :
  api_generate (lit "sk-or-v1-0123")
    (fun _ => Raised ConnectTimeout (lit "connect timed out"))
    (Parsed (JObj [(lit "messages", JArr [])])) =
  (Response (error_body (lit "AI service timed out. Please try again.")) 504,
   [Post (chat_call (lit "sk-or-v1-0123") (JArr []));
    Log_error (lit "Generate API timed out")]).
Proof.
  refine (proj1 (proj2 (timeout_answered_504 (lit "sk-or-v1-0123")
                          (fun _ => Raised ConnectTimeout (lit "connect timed out"))
                          [(lit "messages", JArr [])] (JArr [])
                          ConnectTimeout (lit "connect timed out")
                          _ eq_refl eq_refl eq_refl))).
  discriminate.
Defined.

(** The cases of a proxy handler on a parsed body, for both handlers. *)
Ltac proxy_cases key upstream data :=
  unfold api_generate, api_enhance;
  destruct (negb (truthy (JStr key)));
  [ | destruct (missing_messages data) as [[|]|?];
      [ | | ];
      [ | destruct (getitem data (lit "messages")) as [?messages|?] eqn:?Hget;
          [ cbv zeta;
            destruct (upstream (chat_call key messages))
              as [?status ?result | ?e ?text] eqn:?Hup;
            [ | except_cases e ] | ] | ] ].

(** A parsed body is answered 200, 400, 500, 502 or 504.  A 200 is given
    only after the provider answered, and its body is the provider's
    result as it came; a 400 is given without any call. *)
Theorem proxy_statuses (key : str) (upstream : upstream_call -> upstream_outcome)
    (data : json) :
  In (status_code (fst (api_generate key upstream (Parsed data))))
     [200; 400; 500; 502; 504] /\
  In (status_code (fst (api_enhance key upstream (Parsed data))))
     [200; 400; 500; 502; 504] /\
  (forall body,
     fst (api_generate key upstream (Parsed data)) = Response body 200 \/
     fst (api_enhance key upstream (Parsed data)) = Response body 200 ->
     exists items messages status,
       data = JObj items /\
       lookup (lit "messages") items = Some messages /\
       upstream (chat_call key messages) = Responded status body) /\
  (status_code (fst (api_generate key upstream (Parsed data))) = 400 ->
   snd (api_generate key upstream (Parsed data)) = []) /\
  (status_code (fst (api_enhance key upstream (Parsed data))) = 400 ->
   snd (api_enhance key upstream (Parsed data)) = []).
Proof.
  split; [|split; [|split; [|split]]].
  - proxy_cases key upstream data; cbn; auto 6.
  - proxy_cases key upstream data; cbn; auto 6.
  - intros body Hresp.
    assert (Hfst : fst (api_generate key upstream (Parsed data)) =
                   fst (api_enhance key upstream (Parsed data))).
    { proxy_cases key upstream data; reflexivity. }
    rewrite <- Hfst in Hresp.
    assert (Hgen : fst (api_generate key upstream (Parsed data)) = Response body 200)
      by (destruct Hresp; assumption).
    clear Hresp Hfst. revert Hgen.
    unfold api_generate.
    destruct (negb (truthy (JStr key))); [discriminate|].
    destruct (missing_messages data) as [[|]|?]; try discriminate.
    destruct (getitem data (lit "messages")) as [messages|?] eqn:Hget;
      [|discriminate].
    destruct (getitem_messages_ok data messages Hget) as [items [-> Hlook]].
    cbv zeta.
    destruct (upstream (chat_call key messages)) as [status result | e text] eqn:Hup.
    + cbn. intro H. injection H as <-.
      exists items, messages, status. repeat split; assumption.
    + except_cases e; discriminate.
  - proxy_cases key upstream data; cbn; first [reflexivity | discriminate].
  - proxy_cases key upstream data; cbn; first [reflexivity | discriminate].
Qed.

Lemma upstream_called_once_and_only_for_messages_witness :
  upstream_calls
    (snd (api_enhance (lit "sk-or-v1-0123") (fun _ => Responded 200 JNull)
            (Parsed (JObj [(lit "messages", JArr [])])))) =
  [Post (chat_call (lit "sk-or-v1-0123") (JArr []))].
Proof.
  destruct (upstream_called_once_and_only_for_messages
              (lit "sk-or-v1-0123") (fun _ => Responded 200 JNull)
              (Parsed (JObj [(lit "messages", JArr [])]))
              (chat_call (lit "sk-or-v1-0123") (JArr []))
              (or_introl (or_introl eq_refl)))
    as (_ & items & messages & _ & _ & _ & _ & H).
  exact H.
Defined.

(** A truthy body that is not a dict never reaches the provider.  A list
    without the string "messages" among its elements, and a string without
    "messages" inside it, are answered 400; a list or string that does hold
    it passes the test and fails at [data['messages']], and a number or
    [true] fails at the test itself, both with TypeError (500). *)
Theorem truthy_body_that_is_no_dict (key : str)
    (upstream : upstream_call -> upstream_outcome) (data : json) :
  key <> [] ->
  truthy data = true ->
  (forall items, data <> JObj items) ->
  api_generate key upstream (Parsed data) = api_enhance key upstream (Parsed data) /\
  api_generate key upstream (Parsed data) =
    (match data with
     | JArr elements =>
         if existsb (fun x => match x with
                              | JStr s => str_eqb s (lit "messages")
                              | _ => false
                              end) elements
         then Uncaught TypeError
         else Response (error_body (lit "Missing messages in request body")) 400
     | JStr s =>
         if contains s (lit "messages") then Uncaught TypeError
         else Response (error_body (lit "Missing messages in request body")) 400
     | _ => Uncaught TypeError
     end, []).
Proof.
  intros Hkey Hdata Hnot. unfold api_generate, api_enhance, missing_messages.
  rewrite (configured_key key Hkey), Hdata. cbn [negb].
  destruct data as [| | | | s | elements | items];
    try discriminate Hdata; try (split; reflexivity).
  - unfold pin. cbn [bind]. destruct (contains s (lit "messages"));
      split; reflexivity.
  - unfold pin. cbn [bind].
    destruct (existsb _ elements); split; reflexivity.
  - now elim (Hnot items).
Qed.

Lemma truthy_body_that_is_no_dict_witness :
  api_generate (lit "sk-or-v1-0123") (fun _ => Responded 200 JNull)
    (Parsed (JArr [JStr (lit "messages")])) = (Uncaught TypeError, []).
Proof.
  refine (proj2 (truthy_body_that_is_no_dict (lit "sk-or-v1-0123")
                   (fun _ => Responded 200 JNull)
                   (JArr [JStr (lit "messages")]) _ eq_refl _)).
  - discriminate.
  - intros items H. discriminate H.
Defined.

(** ** The key, from the environment to the endpoints: lines 24, 64, 99, 165 *)

(** An unset key and a key set to the empty string are the same: the
    health endpoint reports [api_key_configured] false and both proxy
    handlers answer 500 to everything.  Any other value is reported as
    configured and lets both handlers past the key test. *)
Theorem key_from_environment (environ : str -> option str) :
  (getenv_api_key environ = [] <->
   environ (lit "OPENROUTER_API_KEY") = None \/
   environ (lit "OPENROUTER_API_KEY") = Some []) /\
  health (getenv_api_key environ) =
    Response (JObj [(lit "status", JStr (lit "ok"));
                    (lit "api_key_configured",
                     JBool (negb (str_eqb (getenv_api_key environ) [])));
                    (lit "model", JStr MODEL)]) 200 /\
  (forall upstream request,
     (getenv_api_key environ = [] <->
      api_generate (getenv_api_key environ) upstream request =
        (Response (error_body (lit "API key not configured on server")) 500, [])) /\
     (getenv_api_key environ = [] <->
      api_enhance (getenv_api_key environ) upstream request =
        (Response (error_body (lit "API key not configured on server")) 500, []))).
Proof.
  split; [|split].
  - unfold getenv_api_key.
    destruct (environ (lit "OPENROUTER_API_KEY")) as [v|]; split.
    + intros ->. now right.
    + intros [H | H]; [discriminate H | now injection H].
    + intros _. now left.
    + reflexivity.
  - reflexivity.
  - intros upstream request.
    destruct (getenv_api_key environ) as [|c key] eqn:Hkey.
    + split; split; reflexivity.
    + split; (split; [discriminate|]).
      * unfold api_generate. cbn [truthy str_eqb negb].
        destruct request as [data | code]; [|discriminate].
        destruct (missing_messages data) as [[|]|?]; try discriminate.
        destruct (getitem data (lit "messages")); [|discriminate].
        cbv zeta. destruct (upstream _) as [? ? | e ?]; [discriminate|].
        except_cases e; discriminate.
      * unfold api_enhance. cbn [truthy str_eqb negb].
        destruct request as [data | code]; [|discriminate].
        destruct (missing_messages data) as [[|]|?]; try discriminate.
        destruct (getitem data (lit "messages")); [|discriminate].
        cbv zeta. destruct (upstream _) as [? ? | e ?]; [discriminate|].
        except_cases e; discriminate.
Qed.

(** ** Start-up: lines 171-178 *)

Section StartupFacts.

Variable int_of_str : str -> option Z.

(** The port is 5000 when PORT is not set, and otherwise what [int] makes
    of PORT; a PORT that [int] rejects ends the start-up with ValueError
    before anything is printed or run.  The port passed to [app.run] is the
    one the printed lines show. *)
Theorem port_from_environment (environ : str -> option str) :
  (environ (lit "PORT") = None ->
   exists st, main environ int_of_str = Ok st /\ port (run st) = 5000) /\
  (forall v, environ (lit "PORT") = Some v -> int_of_str v = None ->
             main environ int_of_str = Raise ValueError) /\
  (forall v n, environ (lit "PORT") = Some v -> int_of_str v = Some n ->
               exists st, main environ int_of_str = Ok st /\ port (run st) = n) /\
  (forall st, main environ int_of_str = Ok st ->
              host (run st) = lit "0.0.0.0" /\
              printed st = banner (getenv_api_key environ) (port (run st))).
Proof.
  unfold main. split; [|split; [|split]].
  - intros ->. cbn. eexists. split; reflexivity.
  - intros v -> Hv. cbn. now rewrite Hv.
  - intros v n -> Hv. cbn. rewrite Hv. cbn. eexists. split; reflexivity.
  - intros st Hst. destruct (int int_of_str _); [|discriminate Hst].
    cbn in Hst. injection Hst as <-. split; reflexivity.
Qed.

(** Debug mode is off exactly when RENDER or RAILWAY_ENVIRONMENT is set to
    a non-empty value; set to the empty string they count as not set. *)
Theorem debug_off_in_production (environ : str -> option str) (st : startup) :
  main environ int_of_str = Ok st ->
  (debug (run st) = false <->
   (exists v, environ (lit "RENDER") = Some v /\ v <> []) \/
   (exists v, environ (lit "RAILWAY_ENVIRONMENT") = Some v /\ v <> [])).
Proof.
  unfold main. destruct (int int_of_str _); [|discriminate].
  cbn [bind]. intro H. injection H as <-. cbn [run debug].
  unfold por, environ_get.
  destruct (environ (lit "RENDER")) as [[|c v]|];
    destruct (environ (lit "RAILWAY_ENVIRONMENT")) as [[|c' v']|]; cbn;
    split; intro H;
    try discriminate H; try reflexivity;
    try (left; eexists; split; [reflexivity|discriminate]);
    try (right; eexists; split; [reflexivity|discriminate]);
    destruct H as [[w [Hw Hne]] | [w [Hw Hne]]];
    try discriminate Hw; injection Hw as <-; now elim Hne.
Qed.

(** The printed lines say whether a key is set, never which: two
    environments that differ only in the value of a non-empty key start up
    alike. *)
Theorem banner_hides_key (environ1 environ2 : str -> option str) :
  (forall k, k <> lit "OPENROUTER_API_KEY" -> environ1 k = environ2 k) ->
  getenv_api_key environ1 <> [] ->
  getenv_api_key environ2 <> [] ->
  main environ1 int_of_str = main environ2 int_of_str.
Proof.
  intros Hsame H1 H2. unfold main, environ_get, banner.
  rewrite (Hsame (lit "PORT")) by discriminate.
  rewrite (Hsame (lit "RENDER")) by discriminate.
  rewrite (Hsame (lit "RAILWAY_ENVIRONMENT")) by discriminate.
  apply truthy_str in H1, H2. rewrite H1, H2. reflexivity.
Qed.

End StartupFacts.

Lemma debug_off_in_production_witness :
  debug {| host := lit "0.0.0.0"; port := 8080; debug := false |} = false.
Proof.
  refine (proj2 (debug_off_in_production ascii_decimal
                   (fun k => if str_eqb k (lit "RENDER") then Some (lit "true")
                             else if str_eqb k (lit "PORT") then Some (lit "8080")
                             else None)
                   {| printed := banner [] 8080;
                      run := {| host := lit "0.0.0.0"; port := 8080; debug := false |} |}
                   eq_refl) _).
  left. exists (lit "true"). split; [reflexivity|discriminate].
Defined.

Lemma banner_hides_key_witness :
  main (fun k => if str_eqb k (lit "OPENROUTER_API_KEY") then Some (lit "sk-or-v1-0123")
                 else None) ascii_decimal =
  main (fun k => if str_eqb k (lit "OPENROUTER_API_KEY") then Some (lit "sk-or-v1-4567")
                 else None) ascii_decimal.
Proof.
  refine (banner_hides_key ascii_decimal
            (fun k => if str_eqb k (lit "OPENROUTER_API_KEY")
                      then Some (lit "sk-or-v1-0123") else None)
            (fun k => if str_eqb k (lit "OPENROUTER_API_KEY")
                      then Some (lit "sk-or-v1-4567") else None) _ _ _).
  - intros k Hk. destruct (str_eqb k (lit "OPENROUTER_API_KEY")) eqn:E.
    + apply str_eqb_eq in E. contradiction.
    + reflexivity.
  - discriminate.
  - discriminate.
Defined.

(** ** Failing inputs: the store and the key *)

(** C5 as stated fails: on a file that may be written but not opened for
    reading, every submission reads the store as empty and overwrites it
    with its own review alone; three submissions are each answered 201,
    and the read that follows returns the empty list, not C, B, A followed
    by the review stored before. *)
Lemma write_only_store_lists_nothing :
  let prior := review_json {| id := 1; name := lit "Zed"; rating := 3;
                              feedback := []; timestamp := lit "2026-01-01 00:00:00" |} in
  let st0 := {| file := Some (Json (JArr [prior])); readable := false; writable := true |} in
  let submit := fun (who : string) (st : storage) =>
    post_review ascii_decimal (Parsed (JObj [(lit "name", JStr (lit who))]))
      sample_clock st in
  let review := fun (who : string) =>
    {| id := now_ms sample_clock; name := lit who; rating := 5;
       feedback := []; timestamp := now_text sample_clock |} in
  let st1 := snd (submit "A"%string st0) in
  let st2 := snd (submit "B"%string st1) in
  let st3 := snd (submit "C"%string st2) in
  fst (submit "A"%string st0) = Response (created_body (review "A"%string)) 201 /\
  fst (submit "B"%string st1) = Response (created_body (review "B"%string)) 201 /\
  fst (submit "C"%string st2) = Response (created_body (review "C"%string)) 201 /\
  get_reviews st3 = Response (JArr []) 200 /\
  get_reviews st3 <>
    Response (JArr [review_json (review "C"%string); review_json (review "B"%string);
                    review_json (review "A"%string); prior]) 200.
Proof.
  cbv zeta. repeat split; try (vm_compute; reflexivity).
  vm_compute. discriminate.
Qed.

(** C6 fails on the code: a name that is one lone surrogate (the body
    [{"name": "\ud800"}]) passes every check, the file is opened for
    writing, which empties it, and [json.dump] raises UnicodeEncodeError
    before the text is complete.  The review stored before is gone: the
    request is answered 500 and the next read returns the empty list. *)
Theorem surrogate_name_loses_prior_reviews :
  let prior := review_json {| id := 1; name := lit "Zed"; rating := 3;
                              feedback := []; timestamp := lit "2026-01-01 00:00:00" |} in
  let st := {| file := Some (Json (JArr [prior])); readable := true; writable := true |} in
  let request := Parsed (JObj [(lit "name", JStr [55296%N])]) in
  get_reviews st = Response (JArr [prior]) 200 /\
  make_review ascii_decimal (JObj [(lit "name", JStr [55296%N])]) sample_clock =
    Ok {| id := now_ms sample_clock; name := [55296%N]; rating := 5;
          feedback := []; timestamp := now_text sample_clock |} /\
  post_review ascii_decimal request sample_clock st =
    (Uncaught UnicodeEncodeError, with_file st NotJson) /\
  get_reviews (snd (post_review ascii_decimal request sample_clock st)) =
    Response (JArr []) 200.
Proof.
  cbv zeta. repeat split; vm_compute; reflexivity.
Qed.

(** C9 fails on the code: with a key that holds a line break, [requests]
    rejects the Authorization header with an InvalidHeader whose text
    quotes the header value, and lines 93-94 (and 128-129) copy that text
    into the log line and into the 502 body: both lines of the key reach
    the client. *)
Theorem key_with_line_break_reaches_the_client :
  let key := lit "sk-or-v1-0123" ++ [10%N] ++ lit "sk-or-v1-4567" in
  let text :=
    lit "Invalid leading whitespace, reserved character(s), or return character(s) in header value: 'Bearer sk-or-v1-0123"
    ++ [92%N; 110%N] ++ lit "sk-or-v1-4567'" in
  let upstream := fun _ : upstream_call => Raised InvalidHeader text in
  let request := Parsed (JObj [(lit "messages", JArr [])]) in
  api_generate key upstream request =
    (Response (error_body (lit "AI service error: " ++ text)) 502,
     [Post (chat_call key (JArr []));
      Log_error (lit "Generate API error: " ++ text)]) /\
  api_enhance key upstream request =
    (Response (error_body (lit "AI service error: " ++ text)) 502,
     [Post (chat_call key (JArr []));
      Log_error (lit "Enhance API error: " ++ text)]) /\
  contains (lit "AI service error: " ++ text) (lit "sk-or-v1-0123") = true /\
  contains (lit "AI service error: " ++ text) (lit "sk-or-v1-4567") = true.
Proof.
  cbv zeta. repeat split; vm_compute; reflexivity.
Qed.

(** ** What the read swallows: lines 30-37 *)

(** When opening, reading or parsing the file raises [e], the read gives
    the empty list if [e] is a JSONDecodeError or an OSError, subclasses
    included, and lets [e] out otherwise: the list request then ends with
    [e], and so does a submission from which a review was built, with the
    file untouched. *)
Theorem load_swallows_json_and_os_errors_only (int_of_str : str -> option Z)
    (e : exn) (st : storage) :
  readable st = true ->
  file st = Some (Unloadable e) ->
  (caught e [JSONDecodeError; OSError] = true ->
   _load_reviews st = Ok (JArr []) /\ get_reviews st = Response (JArr []) 200) /\
  (caught e [JSONDecodeError; OSError] = false ->
   _load_reviews st = Raise e /\
   get_reviews st = Uncaught e /\
   forall data clk r,
     truthy data = true ->
     make_review int_of_str data clk = Ok r ->
     post_review int_of_str (Parsed data) clk st = (Uncaught e, st)).
Proof.
  intros Hread Hfile.
  assert (Hload : _load_reviews st =
                  if caught e [JSONDecodeError; OSError] then Ok (JArr []) else Raise e).
  { unfold _load_reviews, open_and_load. now rewrite Hfile, Hread. }
  split; intro Hcaught; rewrite Hcaught in Hload.
  - split; [exact Hload|]. unfold get_reviews. now rewrite Hload.
  - split; [exact Hload|]. split.
    + unfold get_reviews. now rewrite Hload.
    + intros data clk r Hdata Hmake. unfold post_review.
      now rewrite Hdata, Hmake, Hload.
Qed.

Lemma load_swallows_json_and_os_errors_only_witness :
  get_reviews {| file := Some (Unloadable RecursionError);
                 readable := true; writable := true |} = Uncaught RecursionError.
Proof.
  exact (proj1 (proj2 (proj2 (load_swallows_json_and_os_errors_only ascii_decimal
                  RecursionError
                  {| file := Some (Unloadable RecursionError);
                     readable := true; writable := true |}
                  eq_refl eq_refl) eq_refl))).
Defined.
